(** * math3: a tiny 3D linear algebra library (math3.js)

    Shallow embedding of [src/math3.js] and verification of its
    vector and matrix operations.  Every function of the file whose
    text is a function declaration is embedded; the two that format a
    vector and a matrix as text ([v3_str], [m3x3_str]) are embedded on
    untyped values only, in [JsText], over the engine's [parseFloat] and
    [toFixed].  The text of [v3_unit] (lines 109 to 117) is no function
    declaration: the call it opens is never closed.  It has no
    embedding as a function; it is kept as the text it is
    ([v3_unit_source]).

    The JavaScript code computes on [number]s.  The functions are
    embedded once, over an interface of the numeric operations they
    use, and the interface is instantiated twice:
    - at IEEE 754 binary64 ([PrimFloat.float]), which is what a
      JavaScript number is: [+], [-], [*] and [/] round to the nearest
      number, ties to even, and [Math.sqrt] is taken correctly rounded, as
      engines compute it, so the embedded functions evaluate to the values
      the code returns; [Math.sin] and [Math.cos] are parameters;
    - at the real numbers ([R]), exact arithmetic, where the algebraic
      laws of the library hold as equations.

    A second embedding, [Js], runs the same functions on untyped
    JavaScript values, where reading a property and converting an object
    to a number can throw; on the objects of vectors and matrices it
    returns what the typed functions return. *)

From Stdlib Require Import ZArith Lia Reals Lra Psatz RNsatz.
From Stdlib Require Import Floats.
From Stdlib Require Import Ascii String List Bool.
Import ListNotations.

#[local] Set Warnings "-inexact-float,-register-all".

(** ** The numeric operations used by the library *)

Class Arith (num : Type) : Type := {
  add  : num -> num -> num;      (* l + r  *)
  sub  : num -> num -> num;      (* l - r  *)
  mul  : num -> num -> num;      (* l * r  *)
  div  : num -> num -> num;      (* l / r  *)
  neg  : num -> num;             (* -n     *)
  sqrt : num -> num;             (* Math.sqrt(n) *)
  lit0 : num;                    (* 0.0 *)
  lit1 : num;                    (* 1.0 *)
  eqn  : num -> num -> bool      (* l == r on numbers *)
}.

Class Trig (num : Type) : Type := {
  sin : num -> num;              (* Math.sin(n) *)
  cos : num -> num               (* Math.cos(n) *)
}.

Declare Scope num_scope.
Delimit Scope num_scope with num.
Infix "+" := add : num_scope.
Infix "-" := sub : num_scope.
Infix "*" := mul : num_scope.
Infix "/" := div : num_scope.
Notation "- x" := (neg x) : num_scope.
Infix "==" := eqn (at level 70, no associativity) : num_scope.

(** ** Vectors and matrices *)

Section Math3.

Context {num : Type} {A : Arith num}.
Local Open Scope num_scope.

(** The object [{x, y, z}] built by [v3]. *)
Record vec3 : Type := V3 { x : num; y : num; z : num }.

(** [v3(nx, ny, nz)]: [Number(n)] is the identity on a number. *)
Definition v3 (nx ny nz : num) : vec3 := V3 nx ny nz.

Definition v3_add (vl vr : vec3) : vec3 :=
  v3 (x vl + x vr) (y vl + y vr) (z vl + z vr).

Definition v3_sub (vl vr : vec3) : vec3 :=
  v3 (x vl - x vr) (y vl - y vr) (z vl - z vr).

Definition v3_scale (vl : vec3) (nr : num) : vec3 :=
  v3 (x vl * nr) (y vl * nr) (z vl * nr).

Definition v3_len (v : vec3) : num :=
  sqrt (x v * x v + y v * y v + z v * z v).

Definition v3_dot (vl vr : vec3) : num :=
  x vl * x vr + y vl * y vr + z vl * z vr.

(** The declaration of [v3_cross] documented as the cross product. *)
Definition v3_cross (vl vr : vec3) : vec3 :=
  v3 (y vl * z vr - z vl * y vr)
     (z vl * x vr - x vl * z vr)
     (x vl * y vr - y vl * x vr).

(** The second declaration of [v3_cross], the one that follows the doc
    comment of the inversion.  Function declarations are hoisted and the
    later one of two with the same name is the one bound, so this is the
    function a call of [v3_cross] runs. *)
Definition v3_cross' (vl vr : vec3) : vec3 :=
  v3 (y vl * z vr - z vl * y vr)
     (z vl * x vr - x vl * z vr)
     (x vl * y vr - y vl * x vr).

(** The object [{x, y, z}] of three vectors built by [m3x3]. *)
Record mat3 : Type := M3 { mx : vec3; my : vec3; mz : vec3 }.

Definition m3x3 (nxx nxy nxz nyx nyy nyz nzx nzy nzz : num) : mat3 :=
  M3 (v3 nxx nxy nxz) (v3 nyx nyy nyz) (v3 nzx nzy nzz).

Definition m3x3_identity : mat3 :=
  m3x3 lit1 lit0 lit0
       lit0 lit1 lit0
       lit0 lit0 lit1.

Definition m3x3_transp (m : mat3) : mat3 :=
  m3x3 (x (mx m)) (x (my m)) (x (mz m))
       (y (mx m)) (y (my m)) (y (mz m))
       (z (mx m)) (z (my m)) (z (mz m)).

(** The local [det] of [m3x3_inv]. *)
Definition m3x3_det (m : mat3) : num :=
  x (mx m) * (y (my m) * z (mz m) - y (mz m) * z (my m)) -
  y (mx m) * (x (my m) * z (mz m) - z (my m) * x (mz m)) +
  z (mx m) * (x (my m) * y (mz m) - y (my m) * x (mz m)).

Definition m3x3_inv (m : mat3) : mat3 :=
  let det := m3x3_det m in
  if det == lit0 then m3x3_identity else
  let invdet := lit1 / det in
  m3x3
    ((y (my m) * z (mz m) - y (mz m) * z (my m)) * invdet)
    ((z (mx m) * y (mz m) - y (mx m) * z (mz m)) * invdet)
    ((y (mx m) * z (my m) - z (mx m) * y (my m)) * invdet)
    ((z (my m) * x (mz m) - x (my m) * z (mz m)) * invdet)
    ((x (mx m) * z (mz m) - z (mx m) * x (mz m)) * invdet)
    ((x (my m) * z (mx m) - x (mx m) * z (my m)) * invdet)
    ((x (my m) * y (mz m) - x (mz m) * y (my m)) * invdet)
    ((x (mz m) * y (mx m) - x (mx m) * y (mz m)) * invdet)
    ((x (mx m) * y (my m) - x (my m) * y (mx m)) * invdet).

Definition m3x3_mul (ml mr : mat3) : mat3 :=
  let mtr := m3x3_transp mr in
  m3x3
    (v3_dot (mx ml) (mx mtr)) (v3_dot (mx ml) (my mtr)) (v3_dot (mx ml) (mz mtr))
    (v3_dot (my ml) (mx mtr)) (v3_dot (my ml) (my mtr)) (v3_dot (my ml) (mz mtr))
    (v3_dot (mz ml) (mx mtr)) (v3_dot (mz ml) (my mtr)) (v3_dot (mz ml) (mz mtr)).

Definition v3_m3x3_mul (vl : vec3) (mr : mat3) : vec3 :=
  v3 (v3_dot vl (mx mr)) (v3_dot vl (my mr)) (v3_dot vl (mz mr)).

Context {T : Trig num}.

Definition m3x3_euler (nhead npitch nroll : num) : mat3 :=
  let SINH := sin nhead in
  let SINP := sin npitch in
  let SINR := sin nroll in
  let COSH := cos nhead in
  let COSP := cos npitch in
  let COSR := cos nroll in
  m3x3
    ((COSR * COSH) - (SINR * SINP * SINH)) (- SINR * COSP) ((COSR * SINH) + (SINR * SINP * COSH))
    ((SINR * COSH) + (COSR * SINP * SINH)) (COSR * COSP)   ((SINR * SINH) - (COSR * SINP * COSH))
    (- COSP * SINH)                        SINP            (COSP * COSH).

End Math3.

Arguments vec3 num : clear implicits.
Arguments mat3 num : clear implicits.

(** ** Exact arithmetic: the real numbers *)

#[export] Instance R_Arith : Arith R := {|
  add := Rplus; sub := Rminus; mul := Rmult; div := Rdiv; neg := Ropp;
  sqrt := R_sqrt.sqrt; lit0 := 0%R; lit1 := 1%R;
  eqn := fun l r => if Req_dec_T l r then true else false
|}.

#[export] Instance R_Trig : Trig R := {|
  sin := Rtrigo_def.sin; cos := Rtrigo_def.cos
|}.

(** ** JavaScript numbers: IEEE 754 binary64 *)

#[export] Instance F_Arith : Arith float := {|
  add := PrimFloat.add; sub := PrimFloat.sub; mul := PrimFloat.mul;
  div := PrimFloat.div; neg := PrimFloat.opp; sqrt := PrimFloat.sqrt;
  lit0 := 0%float; lit1 := 1%float;
  eqn := PrimFloat.eqb
|}.

(** [Math.sin] and [Math.cos] are the engine's own approximations; the
    binary64 instance takes them as parameters. *)
Definition F_Trig (MathSin MathCos : float -> float) : Trig float := {|
  sin := MathSin; cos := MathCos
|}.

(** ** Declarations of one name

    The function declarations of a script are bound before any statement
    runs, in the order of the text; of two declarations of one name the
    later is the one bound. *)

Fixpoint bound_function {F : Type} (name : string) (decls : list (string * F))
  : option F :=
  match decls with
  | [] => None
  | (n, f) :: rest =>
      match bound_function name rest with
      | Some g => Some g
      | None => if String.eqb n name then Some f else None
      end
  end.

(** The two declarations of [v3_cross], in the order of the source. *)
Definition v3_cross_declarations {num : Type} {A : Arith num}
  : list (string * (vec3 num -> vec3 num -> vec3 num)) :=
  [("v3_cross"%string, v3_cross); ("v3_cross"%string, v3_cross')].

(** ** Equality of numbers, lifted to vectors and matrices

    [l == r] on every component.  On binary64 it identifies [0] and
    [-0], as [==] and [===] do. *)

Section NumericEquality.

Context {num : Type} {A : Arith num}.
Local Open Scope num_scope.

Definition v3_eqn (vl vr : vec3 num) : bool :=
  (x vl == x vr) && (y vl == y vr) && (z vl == z vr).

Definition m3x3_eqn (ml mr : mat3 num) : bool :=
  v3_eqn (mx ml) (mx mr) && v3_eqn (my ml) (my mr) && v3_eqn (mz ml) (mz mr).

End NumericEquality.

(** ** Finite numbers

    [Number.isFinite(n)]: [n] is neither an infinity nor not-a-number.
    [Prim2SF] gives the sign, mantissa and exponent of a binary64
    number. *)

Definition sf_is_finite (n : spec_float) : bool :=
  match n with
  | S754_zero _ | S754_finite _ _ _ => true
  | S754_infinity _ | S754_nan => false
  end.

Definition sf_is_nan (n : spec_float) : bool :=
  match n with
  | S754_nan => true
  | _ => false
  end.

Definition isFinite (n : float) : bool := sf_is_finite (Prim2SF n).

Definition v3_finite (v : vec3 float) : bool :=
  isFinite (x v) && isFinite (y v) && isFinite (z v).

Definition m3x3_finite (m : mat3 float) : bool :=
  v3_finite (mx m) && v3_finite (my m) && v3_finite (mz m).

(** ** Floating tolerance

    Two binary64 numbers are within [eps] of each other when the absolute
    value of their difference is at most [eps]. *)

Definition near (eps l r : float) : bool :=
  (PrimFloat.abs (l - r) <=? eps)%float.

Definition v3_near (eps : float) (vl vr : vec3 float) : bool :=
  near eps (x vl) (x vr) && near eps (y vl) (y vr) && near eps (z vl) (z vr).

Definition m3x3_near (eps : float) (ml mr : mat3 float) : bool :=
  v3_near eps (mx ml) (mx mr) && v3_near eps (my ml) (my mr) &&
  v3_near eps (mz ml) (mz mr).

(** [a] is the binary64 number [c] or one of its two neighbours: what an
    engine returns for a function whose correctly rounded value is [c]
    when its error is below one unit in the last place. *)
Definition within_ulp (c a : float) : Prop :=
  a = next_down c \/ a = c \/ a = next_up c.

(** The binary64 numbers [1.0] and [-1.0]: mantissa [2^52], exponent
    [-52]. *)
Definition sf_one : spec_float := S754_finite false 4503599627370496 (-52).
Definition sf_minus_one : spec_float := S754_finite true 4503599627370496 (-52).

(** ** The rotation matrix as the specification writes it

    Section 4.2 of the specification gives the three rows of
    [eulerRotation(head, pitch, roll)]. *)

Section SpecEuler.

Context {num : Type} {A : Arith num} {T : Trig num}.
Local Open Scope num_scope.

Definition spec_eulerRotation (head pitch roll : num) : mat3 num :=
  let sinH := sin head in let cosH := cos head in
  let sinP := sin pitch in let cosP := cos pitch in
  let sinR := sin roll in let cosR := cos roll in
  let row0 := V3 (cosR * cosH - sinR * sinP * sinH) (- sinR * cosP) (cosR * sinH + sinR * sinP * cosH) in
  let row1 := V3 (sinR * cosH + cosR * sinP * sinH) (cosR * cosP) (sinR * sinH - cosR * sinP * cosH) in
  let row2 := V3 (- cosP * sinH) sinP (cosP * cosH) in
  M3 row0 row1 row2.

End SpecEuler.

(** ** The functions as JavaScript runs them

    The functions above are typed: a vector is a record of three numbers.
    JavaScript checks nothing of the kind, and a function of the library
    can be handed any value.  [Js] embeds the functions on untyped
    values, with the two ways in which their evaluation can raise:
    reading a property of [undefined] or [null] throws a [TypeError], and
    so does converting to a primitive an object that has no method to
    call for it.

    The values are [undefined], [null], the booleans, the numbers, the
    strings, and the ordinary objects whose prototype is
    [Object.prototype] and whose own properties are data properties,
    named by strings, that hold values again.  Functions, symbols,
    BigInts, accessor properties and other prototypes are not values of
    the model. *)

Module Js.

Inductive value : Type :=
| VUndefined : value
| VNull : value
| VBoolean (b : bool) : value
| VNumber (n : float) : value
| VString (s : string) : value
| VObject (props : list (string * value)) : value.

Inductive exn : Type := TypeError | SyntaxError.

Inductive completion (T : Type) : Type :=
| Normal (v : T)
| Throw (e : exn).

Arguments Normal {T} v.
Arguments Throw {T} e.

Definition bind {T U : Type} (c : completion T) (k : T -> completion U)
  : completion U :=
  match c with
  | Normal v => k v
  | Throw e => Throw e
  end.

Notation "'var' x '::=' c ';;' k" := (bind c (fun x => k))
  (at level 10, x name, c at level 100, k at level 200).

(** An expression evaluates to a value or throws. *)
Definition expr : Type := completion value.

Definition ret (v : value) : expr := Normal v.
Coercion ret : value >-> expr.

(** Own data property [p] of an object; [undefined] when absent. *)
Fixpoint lookup (p : string) (props : list (string * value)) : value :=
  match props with
  | [] => VUndefined
  | (k, v) :: rest => if String.eqb k p then v else lookup p rest
  end.

(** The object has an own property [p], whatever it holds. *)
Fixpoint has_own (p : string) (props : list (string * value)) : bool :=
  match props with
  | [] => false
  | (k, _) :: rest => String.eqb k p || has_own p rest
  end.

(** [v.p] for the property names the library reads ([x], [y], [z]), which
    no primitive and no prototype has. *)
Definition get (v : value) (p : string) : expr :=
  match v with
  | VUndefined | VNull => Throw TypeError
  | VObject props => Normal (lookup p props)
  | VBoolean _ | VNumber _ | VString _ => Normal VUndefined
  end.

Definition member (e : expr) (p : string) : expr :=
  var v ::= e ;; get v p.

(** What the engine supplies: the conversions between numbers and
    strings, and the trigonometric functions. *)
Record engine : Type := Engine {
  NumberToString : float -> string;
  StringToNumber : string -> float;
  MathSin : float -> float;
  MathCos : float -> float
}.

Definition is_object (v : value) : bool :=
  match v with VObject _ => true | _ => false end.

Definition is_string (v : value) : bool :=
  match v with VString _ => true | _ => false end.

(** The conversion of an object to a primitive calls its methods
    [valueOf] and [toString].  An own property of the name hides the
    method of [Object.prototype]; it holds a value of the model, which
    cannot be called, and there is no result.  The inherited [valueOf]
    returns the object itself, the inherited [toString] returns
    ["[object Object]"]. *)
Definition method_result (props : list (string * value)) (name : string)
  : option value :=
  if has_own name props then None
  else if String.eqb name "valueOf" then Some (VObject props)
  else if String.eqb name "toString" then Some (VString "[object Object]")
  else None.

(** Which method is tried first: [valueOf] when a number is wanted or
    nothing is said (the operands of [+] and of [==]), [toString] when a
    string is wanted. *)
Inductive hint : Type := PreferNumber | PreferString.

Definition method_names (h : hint) : list string :=
  match h with
  | PreferNumber => ["valueOf"; "toString"]
  | PreferString => ["toString"; "valueOf"]
  end%string.

(** The first primitive that a method returns; a [TypeError] when none
    does. *)
Fixpoint OrdinaryToPrimitive (props : list (string * value)) (names : list string)
  : expr :=
  match names with
  | [] => Throw TypeError
  | name :: rest =>
      match method_result props name with
      | Some r => if is_object r then OrdinaryToPrimitive props rest else Normal r
      | None => OrdinaryToPrimitive props rest
      end
  end.

Definition ToPrimitive (h : hint) (v : value) : expr :=
  match v with
  | VObject props => OrdinaryToPrimitive props (method_names h)
  | _ => Normal v
  end.

Section Semantics.

Variable eng : engine.

(** The number and the string of a primitive (the conversion of an object
    gives a primitive or throws, so the last case does not arise). *)
Definition primitive_to_number (p : value) : float :=
  match p with
  | VUndefined => nan
  | VNull => 0%float
  | VBoolean b => if b then 1%float else 0%float
  | VNumber n => n
  | VString s => StringToNumber eng s
  | VObject _ => nan
  end.

Definition primitive_to_string (p : value) : string :=
  match p with
  | VUndefined => "undefined"
  | VNull => "null"
  | VBoolean b => if b then "true" else "false"
  | VNumber n => NumberToString eng n
  | VString s => s
  | VObject _ => "[object Object]"
  end.

Definition ToNumber (v : value) : completion float :=
  var p ::= ToPrimitive PreferNumber v ;; Normal (primitive_to_number p).

Definition ToString (v : value) : completion string :=
  var p ::= ToPrimitive PreferString v ;; Normal (primitive_to_string p).

(** [l + r]: concatenation when either primitive is a string. *)
Definition js_add (l r : value) : expr :=
  var lp ::= ToPrimitive PreferNumber l ;;
  var rp ::= ToPrimitive PreferNumber r ;;
  if is_string lp || is_string rp
  then var ls ::= ToString lp ;; var rs ::= ToString rp ;;
       Normal (VString (ls ++ rs))
  else var ln ::= ToNumber lp ;; var rn ::= ToNumber rp ;;
       Normal (VNumber (ln + rn)%float).

Definition js_sub (l r : value) : expr :=
  var ln ::= ToNumber l ;; var rn ::= ToNumber r ;; Normal (VNumber (ln - rn)%float).

Definition js_mul (l r : value) : expr :=
  var ln ::= ToNumber l ;; var rn ::= ToNumber r ;; Normal (VNumber (ln * rn)%float).

Definition js_div (l r : value) : expr :=
  var ln ::= ToNumber l ;; var rn ::= ToNumber r ;; Normal (VNumber (ln / rn)%float).

Definition js_neg (v : value) : expr :=
  var n ::= ToNumber v ;; Normal (VNumber (- n)%float).

(** [l == n] for a number [n]. *)
Definition js_eq_number (l : value) (n : float) : completion bool :=
  var lp ::= ToPrimitive PreferNumber l ;;
  match lp with
  | VUndefined | VNull => Normal false
  | _ => var ln ::= ToNumber lp ;; Normal (PrimFloat.eqb ln n)
  end.

Definition Number (v : value) : expr :=
  var n ::= ToNumber v ;; Normal (VNumber n).

Definition Math_sqrt (v : value) : expr :=
  var n ::= ToNumber v ;; Normal (VNumber (PrimFloat.sqrt n)).

Definition Math_sin (v : value) : expr :=
  var n ::= ToNumber v ;; Normal (VNumber (MathSin eng n)).

Definition Math_cos (v : value) : expr :=
  var n ::= ToNumber v ;; Normal (VNumber (MathCos eng n)).

(** Operators on expressions: left operand first. *)
Definition binop (op : value -> value -> expr) (l r : expr) : expr :=
  var a ::= l ;; var b ::= r ;; op a b.

Definition unop (op : value -> expr) (e : expr) : expr :=
  var a ::= e ;; op a.

Definition call2 (f : value -> value -> expr) (a b : expr) : expr :=
  var a' ::= a ;; var b' ::= b ;; f a' b'.

Definition call3 (f : value -> value -> value -> expr) (a b c : expr) : expr :=
  var a' ::= a ;; var b' ::= b ;; var c' ::= c ;; f a' b' c'.

Definition call9
  (f : value -> value -> value -> value -> value -> value ->
       value -> value -> value -> expr)
  (a b c d e g h i j : expr) : expr :=
  var a' ::= a ;; var b' ::= b ;; var c' ::= c ;;
  var d' ::= d ;; var e' ::= e ;; var g' ::= g ;;
  var h' ::= h ;; var i' ::= i ;; var j' ::= j ;;
  f a' b' c' d' e' g' h' i' j'.

Definition lit (n : float) : value := VNumber n.

Declare Scope js_scope.
Delimit Scope js_scope with js.
Local Notation "e ~> p" := (member e p) (at level 25, left associativity) : js_scope.
Local Notation "l + r" := (binop js_add l r) : js_scope.
Local Notation "l - r" := (binop js_sub l r) : js_scope.
Local Notation "l * r" := (binop js_mul l r) : js_scope.
Local Notation "l / r" := (binop js_div l r) : js_scope.
Local Notation "- e" := (unop js_neg e) : js_scope.
Local Open Scope js_scope.

Definition v3 (nx ny nz : value) : expr :=
  var vx ::= Number nx ;;
  var vy ::= Number ny ;;
  var vz ::= Number nz ;;
  Normal (VObject [("x", vx); ("y", vy); ("z", vz)]%string).

Definition v3_add (vl vr : value) : expr :=
  call3 v3
    (vl~>"x" + vr~>"x")
    (vl~>"y" + vr~>"y")
    (vl~>"z" + vr~>"z").

Definition v3_sub (vl vr : value) : expr :=
  call3 v3
    (vl~>"x" - vr~>"x")
    (vl~>"y" - vr~>"y")
    (vl~>"z" - vr~>"z").

Definition v3_scale (vl nr : value) : expr :=
  call3 v3
    (vl~>"x" * nr)
    (vl~>"y" * nr)
    (vl~>"z" * nr).

Definition v3_len (v : value) : expr :=
  unop Math_sqrt (v~>"x" * v~>"x" + v~>"y" * v~>"y" + v~>"z" * v~>"z").

Definition v3_dot (vl vr : value) : expr :=
  vl~>"x" * vr~>"x" + vl~>"y" * vr~>"y" + vl~>"z" * vr~>"z".

(** Both declarations of [v3_cross] have this body. *)
Definition v3_cross (vl vr : value) : expr :=
  call3 v3
    (vl~>"y" * vr~>"z" - vl~>"z" * vr~>"y")
    (vl~>"z" * vr~>"x" - vl~>"x" * vr~>"z")
    (vl~>"x" * vr~>"y" - vl~>"y" * vr~>"x").

Definition m3x3 (nxx nxy nxz nyx nyy nyz nzx nzy nzz : value) : expr :=
  var rx ::= v3 nxx nxy nxz ;;
  var ry ::= v3 nyx nyy nyz ;;
  var rz ::= v3 nzx nzy nzz ;;
  Normal (VObject [("x", rx); ("y", ry); ("z", rz)]%string).

Definition m3x3_identity : expr :=
  call9 m3x3
    (lit 1) (lit 0) (lit 0)
    (lit 0) (lit 1) (lit 0)
    (lit 0) (lit 0) (lit 1).

Definition m3x3_transp (m : value) : expr :=
  call9 m3x3
    (m~>"x"~>"x") (m~>"y"~>"x") (m~>"z"~>"x")
    (m~>"x"~>"y") (m~>"y"~>"y") (m~>"z"~>"y")
    (m~>"x"~>"z") (m~>"y"~>"z") (m~>"z"~>"z").

Definition m3x3_euler (nhead npitch nroll : value) : expr :=
  var SINH ::= Math_sin nhead ;;
  var SINP ::= Math_sin npitch ;;
  var SINR ::= Math_sin nroll ;;
  var COSH ::= Math_cos nhead ;;
  var COSP ::= Math_cos npitch ;;
  var COSR ::= Math_cos nroll ;;
  call9 m3x3
    ((COSR * COSH) - (SINR * SINP * SINH)) (- SINR * COSP) ((COSR * SINH) + (SINR * SINP * COSH))
    ((SINR * COSH) + (COSR * SINP * SINH)) (COSR * COSP)   ((SINR * SINH) - (COSR * SINP * COSH))
    (- COSP * SINH)                        SINP            (COSP * COSH).

Definition m3x3_inv (m : value) : expr :=
  var det ::=
    m~>"x"~>"x" * (m~>"y"~>"y" * m~>"z"~>"z" - m~>"z"~>"y" * m~>"y"~>"z") -
    m~>"x"~>"y" * (m~>"y"~>"x" * m~>"z"~>"z" - m~>"y"~>"z" * m~>"z"~>"x") +
    m~>"x"~>"z" * (m~>"y"~>"x" * m~>"z"~>"y" - m~>"y"~>"y" * m~>"z"~>"x") ;;
  var singular ::= js_eq_number det 0 ;;
  if singular then m3x3_identity else
  var invdet ::= lit 1 / det ;;
  call9 m3x3
    ((m~>"y"~>"y" * m~>"z"~>"z" - m~>"z"~>"y" * m~>"y"~>"z") * invdet)
    ((m~>"x"~>"z" * m~>"z"~>"y" - m~>"x"~>"y" * m~>"z"~>"z") * invdet)
    ((m~>"x"~>"y" * m~>"y"~>"z" - m~>"x"~>"z" * m~>"y"~>"y") * invdet)
    ((m~>"y"~>"z" * m~>"z"~>"x" - m~>"y"~>"x" * m~>"z"~>"z") * invdet)
    ((m~>"x"~>"x" * m~>"z"~>"z" - m~>"x"~>"z" * m~>"z"~>"x") * invdet)
    ((m~>"y"~>"x" * m~>"x"~>"z" - m~>"x"~>"x" * m~>"y"~>"z") * invdet)
    ((m~>"y"~>"x" * m~>"z"~>"y" - m~>"z"~>"x" * m~>"y"~>"y") * invdet)
    ((m~>"z"~>"x" * m~>"x"~>"y" - m~>"x"~>"x" * m~>"z"~>"y") * invdet)
    ((m~>"x"~>"x" * m~>"y"~>"y" - m~>"y"~>"x" * m~>"x"~>"y") * invdet).

Definition m3x3_mul (ml mr : value) : expr :=
  var mtr ::= m3x3_transp mr ;;
  call9 m3x3
    (call2 v3_dot (ml~>"x") (mtr~>"x")) (call2 v3_dot (ml~>"x") (mtr~>"y")) (call2 v3_dot (ml~>"x") (mtr~>"z"))
    (call2 v3_dot (ml~>"y") (mtr~>"x")) (call2 v3_dot (ml~>"y") (mtr~>"y")) (call2 v3_dot (ml~>"y") (mtr~>"z"))
    (call2 v3_dot (ml~>"z") (mtr~>"x")) (call2 v3_dot (ml~>"z") (mtr~>"y")) (call2 v3_dot (ml~>"z") (mtr~>"z")).

Definition v3_m3x3_mul (vl mr : value) : expr :=
  call3 v3
    (call2 v3_dot vl (mr~>"x"))
    (call2 v3_dot vl (mr~>"y"))
    (call2 v3_dot vl (mr~>"z")).

End Semantics.

(** Well-typed input: a number, the object of a vector, the object of a
    matrix. *)
Definition of_vec3 (v : vec3 float) : value :=
  VObject [("x", VNumber (x v)); ("y", VNumber (y v)); ("z", VNumber (z v))]%string.

Definition of_mat3 (m : mat3 float) : value :=
  VObject [("x", of_vec3 (mx m)); ("y", of_vec3 (my m)); ("z", of_vec3 (mz m))]%string.

End Js.

(** ** The text of the script

    A script is parsed as a whole before any of it runs: a text that is
    not a Script of the grammar is rejected with a [SyntaxError], and none
    of its functions is declared.  In every Script the brackets nest;
    for a text without string literals, comments and regular expressions
    that can be checked on its characters. *)

Inductive bracket : Type := Round | Curly | Square.

Definition bracket_eqb (l r : bracket) : bool :=
  match l, r with
  | Round, Round | Curly, Curly | Square, Square => true
  | _, _ => false
  end.

Definition opening (c : Ascii.ascii) : option bracket :=
  if Ascii.eqb c "("%char then Some Round
  else if Ascii.eqb c "{"%char then Some Curly
  else if Ascii.eqb c "["%char then Some Square
  else None.

Definition closing (c : Ascii.ascii) : option bracket :=
  if Ascii.eqb c ")"%char then Some Round
  else if Ascii.eqb c "}"%char then Some Curly
  else if Ascii.eqb c "]"%char then Some Square
  else None.

(** [pending] holds the brackets opened and not yet closed, innermost
    first. *)
Fixpoint brackets_nest (pending : list bracket) (text : string) : bool :=
  match text with
  | EmptyString => match pending with [] => true | _ :: _ => false end
  | String c rest =>
      match opening c, closing c with
      | Some b, _ => brackets_nest (b :: pending) rest
      | None, Some b =>
          match pending with
          | b' :: pending' => bracket_eqb b b' && brackets_nest pending' rest
          | [] => false
          end
      | None, None => brackets_nest pending rest
      end
  end.

Definition early_error (text : string) : option Js.exn :=
  if brackets_nest [] text then None else Some Js.SyntaxError.

(** Where the nesting of a text breaks: at a closing bracket that does
    not close the innermost pending one ([opened], with the line it was
    opened on, when there is one), or at the end of the text with a
    bracket still pending. *)
Inductive nesting : Type :=
| Nested
| Unmatched (closed : bracket) (line : nat) (opened : option (bracket * nat))
| Unclosed (opened : bracket) (line : nat).

(** [line] is the number of the line the text starts on; a line ends with
    a line feed. *)
Fixpoint check_nesting (pending : list (bracket * nat)) (line : nat)
  (text : string) : nesting :=
  match text with
  | EmptyString =>
      match pending with
      | [] => Nested
      | (b, l) :: _ => Unclosed b l
      end
  | String c rest =>
      match opening c, closing c with
      | Some b, _ => check_nesting ((b, line) :: pending) line rest
      | None, Some b =>
          match pending with
          | (b', l) :: pending' =>
              if bracket_eqb b b' then check_nesting pending' line rest
              else Unmatched b line (Some (b', l))
          | [] => Unmatched b line None
          end
      | None, None =>
          check_nesting pending
            (if Ascii.eqb c (Ascii.ascii_of_nat 10) then S line else line) rest
      end
  end.

(** A call of a function that a script declares: the script is parsed
    before any of it runs, and when its text is rejected the error is all
    there is, the call is never made. *)
Definition call_in_script (text : string) (call : Js.expr) : Js.expr :=
  match early_error text with
  | Some e => Js.Throw e
  | None => call
  end.

(** Lines 109 to 117 of the source: the text of [v3_unit]. *)
Definition v3_unit_source : string :=
"function v3_unit(v)
{
    var inv_len = 1.0 / v3_len(v);
    return v3(
        v.x * inv_len,
        v.y * inv_len,
        v.z * inv_len
    
}".

(** Lines 81 to 88 of the source: the declaration of [v3_scale], which
    builds its result by the same call. *)
Definition v3_scale_source : string :=
"function v3_scale(vl, nr)
{
    return v3(
        vl.x * nr,
        vl.y * nr,
        vl.z * nr
    );
}".

(** ** Not-a-number

    [Number.isNaN(n)]: not-a-number is the one number that is not equal
    to itself. *)

Definition isNaN (n : float) : bool := negb (PrimFloat.eqb n n).

Definition v3_has_nan (v : vec3 float) : bool :=
  isNaN (x v) || isNaN (y v) || isNaN (z v).

Definition m3x3_has_nan (m : mat3 float) : bool :=
  v3_has_nan (mx m) || v3_has_nan (my m) || v3_has_nan (mz m).

(** ** Outcomes of a call on untyped values *)

(** [undefined] and [null], the values whose properties cannot be read. *)
Definition js_nullish (v : Js.value) : bool :=
  match v with
  | Js.VUndefined | Js.VNull => true
  | _ => false
  end.

(** What reading property [p] of [v] gives when it does not throw: the
    own property of an object, [undefined] on a primitive. *)
Definition js_prop (v : Js.value) (p : string) : Js.value :=
  match v with
  | Js.VObject props => Js.lookup p props
  | _ => Js.VUndefined
  end.

(** An object with an own property [toString]: the property hides the
    method that would convert the object, and cannot be called. *)
Definition js_unconvertible (v : Js.value) : bool :=
  match v with
  | Js.VObject props => Js.has_own "toString" props
  | _ => false
  end.

(** A value cannot be read as a vector when it is [undefined] or [null],
    or when one of its components [x], [y], [z] cannot be converted. *)
Definition js_no_vector (v : Js.value) : bool :=
  js_nullish v || js_unconvertible (js_prop v "x") ||
  js_unconvertible (js_prop v "y") || js_unconvertible (js_prop v "z").

(** A value cannot be read as a matrix when it is [undefined] or [null],
    or when one of its rows [x], [y], [z] cannot be read as a vector. *)
Definition js_no_matrix (m : Js.value) : bool :=
  js_nullish m || js_no_vector (js_prop m "x") ||
  js_no_vector (js_prop m "y") || js_no_vector (js_prop m "z").

(** The primitive and the number of a value that can be converted. *)
Definition js_primitive (v : Js.value) : Js.value :=
  match v with
  | Js.VObject _ => Js.VString "[object Object]"
  | _ => v
  end.

Definition js_number (eng : Js.engine) (v : Js.value) : float :=
  Js.primitive_to_number eng (js_primitive v).

Definition js_string (eng : Js.engine) (v : Js.value) : string :=
  Js.primitive_to_string eng (js_primitive v).

(** [l + r] on values that can be converted. *)
Definition js_sum (eng : Js.engine) (l r : Js.value) : Js.value :=
  if Js.is_string (js_primitive l) || Js.is_string (js_primitive r)
  then Js.VString (js_string eng l ++ js_string eng r)
  else Js.VNumber (js_number eng l + js_number eng r)%float.

(** The vector and the matrix of the numbers that the functions read from
    a value: the numbers of its components [x], [y], [z], and of those of
    its rows. *)
Definition js_vector (eng : Js.engine) (v : Js.value) : vec3 float :=
  V3 (js_number eng (js_prop v "x")) (js_number eng (js_prop v "y"))
     (js_number eng (js_prop v "z")).

Definition js_matrix (eng : Js.engine) (m : Js.value) : mat3 float :=
  M3 (js_vector eng (js_prop m "x")) (js_vector eng (js_prop m "y"))
     (js_vector eng (js_prop m "z")).

(** The object of a vector whose components are strings. *)
Definition js_string_vector (sx sy sz : string) : Js.value :=
  Js.VObject [("x", Js.VString sx); ("y", Js.VString sy); ("z", Js.VString sz)]%string.

(** ** The functions that format a vector and a matrix as text

    [v3_str] and [m3x3_str] call [parseFloat] and [toFixed(2)], which the
    engine supplies. *)

Module JsText.

Import Js.

Record text_engine : Type := TextEngine {
  ParseFloat : string -> float;         (* parseFloat(s) on a string *)
  NumberToFixed2 : float -> string      (* n.toFixed(2) on a number *)
}.

Section Formatting.

Variable eng : engine.
Variable txt : text_engine.

(** [parseFloat(v)] converts its argument to a string and reads a number
    from it. *)
Definition parseFloat (v : value) : expr :=
  var s ::= ToString eng v ;; Normal (VNumber (ParseFloat txt s)).

(** [v.toFixed(2)]: a method of numbers; on [undefined] and [null] the
    property cannot be read, on another value it is not a function. *)
Definition toFixed2 (v : value) : expr :=
  match v with
  | VNumber n => Normal (VString (NumberToFixed2 txt n))
  | _ => Throw TypeError
  end.

Definition fixed (e : expr) : expr :=
  var c ::= e ;; var n ::= parseFloat c ;; toFixed2 n.

Declare Scope jstext_scope.
Local Notation "l + r" := (binop (js_add eng) l r) : jstext_scope.
Local Notation "e ~> p" := (member e p) (at level 25, left associativity) : jstext_scope.
Local Open Scope jstext_scope.

Definition v3_str (v : value) : expr :=
  fixed (v~>"x") + VString ", " + fixed (v~>"y") + VString ", " + fixed (v~>"z").

Definition call1 (f : value -> expr) (a : expr) : expr :=
  var a' ::= a ;; f a'.

Definition newline : string := String (Ascii.ascii_of_nat 10) EmptyString.

Definition m3x3_str (m : value) : expr :=
  call1 v3_str (m~>"x") + VString newline + call1 v3_str (m~>"y") +
  VString newline + call1 v3_str (m~>"z").

End Formatting.

End JsText.

(** The numeral of a number, [parseFloat(n).toFixed(2)], and the line of a
    vector of numbers. *)
Definition numeral_of (eng : Js.engine) (txt : JsText.text_engine) (n : float)
  : string :=
  JsText.NumberToFixed2 txt (JsText.ParseFloat txt (Js.NumberToString eng n)).

Definition v3_text (eng : Js.engine) (txt : JsText.text_engine) (v : vec3 float)
  : string :=
  (numeral_of eng txt (x v) ++ ", " ++ numeral_of eng txt (y v) ++ ", " ++
   numeral_of eng txt (z v))%string.

(** The numeral [parseFloat(c).toFixed(2)] of a value that can be
    converted, and the line of a value read as a vector. *)
Definition js_numeral (eng : Js.engine) (txt : JsText.text_engine) (c : Js.value)
  : string :=
  JsText.NumberToFixed2 txt (JsText.ParseFloat txt (js_string eng c)).

Definition js_text (eng : Js.engine) (txt : JsText.text_engine) (v : Js.value)
  : string :=
  (js_numeral eng txt (js_prop v "x") ++ ", " ++ js_numeral eng txt (js_prop v "y") ++
   ", " ++ js_numeral eng txt (js_prop v "z"))%string.

(** ** Reading the text back

    [text.split(", ")] and [text.split("\n")]: the pieces of a text
    between the occurrences of a separator, left to right. *)

Fixpoint split_comma_space (piece text : string) : list string :=
  match text with
  | EmptyString => [piece]
  | String c rest =>
      match rest with
      | String c' rest' =>
          if Ascii.eqb c ","%char && Ascii.eqb c' " "%char
          then piece :: split_comma_space EmptyString rest'
          else split_comma_space (piece ++ String c EmptyString) rest
      | EmptyString => [(piece ++ String c EmptyString)%string]
      end
  end.

Fixpoint split_newline (piece text : string) : list string :=
  match text with
  | EmptyString => [piece]
  | String c rest =>
      if Ascii.eqb c (Ascii.ascii_of_nat 10)
      then piece :: split_newline EmptyString rest
      else split_newline (piece ++ String c EmptyString) rest
  end.

(** The character [c] does not occur in [text]. *)
Fixpoint lacks (c : Ascii.ascii) (text : string) : bool :=
  match text with
  | EmptyString => true
  | String c' rest => negb (Ascii.eqb c' c) && lacks c rest
  end.

(** * Verification *)

(** ** Exact arithmetic *)

Section Exact.

Local Open Scope R_scope.

Lemma eqn_R_true (l r : R) : eqn l r = true <-> l = r.
Proof. simpl. destruct (Req_dec_T l r); split; congruence. Qed.

Lemma eqn_R_false (l r : R) : l <> r -> eqn l r = false.
Proof. simpl. destruct (Req_dec_T l r); congruence. Qed.

Lemma m3x3_inv_mul_R (m : mat3 R) :
  m3x3_det m <> 0 -> m3x3_mul (m3x3_inv m) m = m3x3_identity.
Proof.
  intros Hdet. unfold m3x3_inv.
  rewrite eqn_R_false by exact Hdet.
  destruct m as [[a b c] [d e f] [g h i]].
  unfold m3x3_det in *. cbn in *.
  unfold m3x3_mul, m3x3_identity, m3x3_transp, m3x3, v3_dot, v3. cbn.
  repeat f_equal; field; exact Hdet.
Qed.

(** The matrix of [m3x3_euler] is a product of three plane rotations, so
    its determinant is the product of three sums [sin² + cos²]. *)
Lemma m3x3_euler_det_R (h p r : R) : m3x3_det (m3x3_euler h p r) = 1.
Proof.
  unfold m3x3_det, m3x3_euler, m3x3, v3. cbn.
  transitivity (((Rtrigo_def.sin r)² + (Rtrigo_def.cos r)²) *
                ((Rtrigo_def.sin p)² + (Rtrigo_def.cos p)²) *
                ((Rtrigo_def.sin h)² + (Rtrigo_def.cos h)²)).
  - unfold Rsqr. ring.
  - rewrite !sin2_cos2. ring.
Qed.

Lemma v3_len_sqr_R (v : vec3 R) :
  v3_len v * v3_len v = x v * x v + y v * y v + z v * z v.
Proof.
  unfold v3_len. cbn. apply sqrt_sqrt. nra.
Qed.

Lemma v3_len_3_4_0_R : v3_len (V3 3 4 0) = 5.
Proof.
  unfold v3_len. cbn.
  replace (3 * 3 + 4 * 4 + 0 * 0) with (5 * 5) by ring.
  apply sqrt_square. lra.
Qed.

Lemma v3_cross_anticomm_R (l r : vec3 R) :
  v3_cross l r = v3_scale (v3_cross r l) (-1).
Proof.
  unfold v3_cross, v3_scale, v3. cbn. f_equal; ring.
Qed.

Lemma v3_cross_orth_R (l r : vec3 R) :
  v3_dot (v3_cross l r) l = 0 /\ v3_dot (v3_cross l r) r = 0.
Proof.
  unfold v3_cross, v3_dot, v3. cbn. split; ring.
Qed.

Lemma m3x3_mul_identity_R (m : mat3 R) :
  m3x3_mul m3x3_identity m = m /\ m3x3_mul m m3x3_identity = m.
Proof.
  destruct m as [[a b c] [d e f] [g h i]].
  unfold m3x3_mul, m3x3_identity, m3x3_transp, m3x3, v3_dot, v3. cbn.
  split; repeat f_equal; ring.
Qed.

Lemma m3x3_euler_0_R : m3x3_euler 0 0 0 = m3x3_identity.
Proof.
  unfold m3x3_euler, m3x3_identity, m3x3, v3. cbn.
  rewrite sin_0, cos_0. repeat f_equal; ring.
Qed.

Lemma m3x3_euler_head_PI2_R :
  m3x3_euler (PI / 2) 0 0 = m3x3 0 0 1  0 1 0  (-1) 0 0.
Proof.
  unfold m3x3_euler, m3x3, v3. cbn.
  rewrite sin_PI2, cos_PI2, sin_0, cos_0. repeat f_equal; ring.
Qed.

Lemma transform_head_PI2_R :
  v3_m3x3_mul (V3 1 0 0) (m3x3_euler (PI / 2) 0 0) = V3 0 0 (-1).
Proof.
  rewrite m3x3_euler_head_PI2_R.
  unfold v3_m3x3_mul, v3_dot, m3x3, v3. cbn. f_equal; ring.
Qed.

End Exact.

(** ** The untyped functions on well-typed input

    Every function whose text is a declaration returns on numbers and on
    the objects of vectors and matrices, and what it returns is the object
    of the typed function's result. *)

Section WellTyped.

Variable eng : Js.engine.

Lemma js_v3_ok (a b c : float) :
  Js.v3 eng (Js.VNumber a) (Js.VNumber b) (Js.VNumber c)
  = Js.Normal (Js.of_vec3 (v3 a b c)).
Proof. reflexivity. Qed.

Lemma js_v3_add_ok (vl vr : vec3 float) :
  Js.v3_add eng (Js.of_vec3 vl) (Js.of_vec3 vr)
  = Js.Normal (Js.of_vec3 (v3_add vl vr)).
Proof. reflexivity. Qed.

Lemma js_v3_sub_ok (vl vr : vec3 float) :
  Js.v3_sub eng (Js.of_vec3 vl) (Js.of_vec3 vr)
  = Js.Normal (Js.of_vec3 (v3_sub vl vr)).
Proof. reflexivity. Qed.

Lemma js_v3_scale_ok (vl : vec3 float) (nr : float) :
  Js.v3_scale eng (Js.of_vec3 vl) (Js.VNumber nr)
  = Js.Normal (Js.of_vec3 (v3_scale vl nr)).
Proof. reflexivity. Qed.

Lemma js_v3_len_ok (v : vec3 float) :
  Js.v3_len eng (Js.of_vec3 v) = Js.Normal (Js.VNumber (v3_len v)).
Proof. reflexivity. Qed.

Lemma js_v3_dot_ok (vl vr : vec3 float) :
  Js.v3_dot eng (Js.of_vec3 vl) (Js.of_vec3 vr)
  = Js.Normal (Js.VNumber (v3_dot vl vr)).
Proof. reflexivity. Qed.

Lemma js_v3_cross_ok (vl vr : vec3 float) :
  Js.v3_cross eng (Js.of_vec3 vl) (Js.of_vec3 vr)
  = Js.Normal (Js.of_vec3 (v3_cross' vl vr)).
Proof. reflexivity. Qed.

Lemma js_m3x3_ok (a b c d e f g h i : float) :
  Js.m3x3 eng (Js.VNumber a) (Js.VNumber b) (Js.VNumber c)
              (Js.VNumber d) (Js.VNumber e) (Js.VNumber f)
              (Js.VNumber g) (Js.VNumber h) (Js.VNumber i)
  = Js.Normal (Js.of_mat3 (m3x3 a b c d e f g h i)).
Proof. reflexivity. Qed.

Lemma js_m3x3_identity_ok :
  Js.m3x3_identity eng = Js.Normal (Js.of_mat3 m3x3_identity).
Proof. reflexivity. Qed.

Lemma js_m3x3_transp_ok (m : mat3 float) :
  Js.m3x3_transp eng (Js.of_mat3 m) = Js.Normal (Js.of_mat3 (m3x3_transp m)).
Proof. reflexivity. Qed.

Lemma js_m3x3_euler_ok (nhead npitch nroll : float) :
  Js.m3x3_euler eng (Js.VNumber nhead) (Js.VNumber npitch) (Js.VNumber nroll)
  = Js.Normal (Js.of_mat3
      (m3x3_euler (T := F_Trig (Js.MathSin eng) (Js.MathCos eng))
                  nhead npitch nroll)).
Proof. reflexivity. Qed.

Lemma js_m3x3_inv_ok (m : mat3 float) :
  Js.m3x3_inv eng (Js.of_mat3 m) = Js.Normal (Js.of_mat3 (m3x3_inv m)).
Proof.
  unfold m3x3_inv, Js.m3x3_inv. cbv.
  match goal with
  | |- context [PrimFloat.eqb ?d ?o] => destruct (PrimFloat.eqb d o)
  end; reflexivity.
Qed.

Lemma js_m3x3_mul_ok (ml mr : mat3 float) :
  Js.m3x3_mul eng (Js.of_mat3 ml) (Js.of_mat3 mr)
  = Js.Normal (Js.of_mat3 (m3x3_mul ml mr)).
Proof. reflexivity. Qed.

Lemma js_v3_m3x3_mul_ok (vl : vec3 float) (mr : mat3 float) :
  Js.v3_m3x3_mul eng (Js.of_vec3 vl) (Js.of_mat3 mr)
  = Js.Normal (Js.of_vec3 (v3_m3x3_mul vl mr)).
Proof. reflexivity. Qed.

(** Outside the well-typed input a call can throw. *)
Example js_v3_len_undefined :
  Js.v3_len eng Js.VUndefined = Js.Throw Js.TypeError.
Proof. reflexivity. Qed.

(** An object with an own property [toString] that is no function
    cannot be converted to a number: the length of
    [{x: {toString: 0}, y: 0, z: 0}] is a [TypeError].  An own [valueOf]
    that is no function is skipped, and the inherited [toString]
    converts the object. *)
Example js_v3_len_unconvertible :
  Js.v3_len eng
    (Js.VObject [("x", Js.VObject [("toString", Js.VNumber 0)]);
                 ("y", Js.VNumber 0); ("z", Js.VNumber 0)]%string)
  = Js.Throw Js.TypeError.
Proof. reflexivity. Qed.

Example js_v3_len_own_valueOf :
  Js.v3_len eng
    (Js.VObject [("x", Js.VObject [("valueOf", Js.VNumber 0)]);
                 ("y", Js.VNumber 0); ("z", Js.VNumber 0)]%string)
  = Js.Normal (Js.VNumber
      (v3_len (V3 (Js.StringToNumber eng "[object Object]") 0 0)%float)).
Proof. reflexivity. Qed.

End WellTyped.

(** ** The text of the script *)

Lemma check_nesting_nested (text : string) :
  forall (pending : list (bracket * nat)) (line : nat),
    check_nesting pending line text = Nested <->
    brackets_nest (map fst pending) text = true.
Proof.
  induction text as [| c rest IH]; intros pending line;
    cbn [check_nesting brackets_nest].
  - destruct pending as [| [b l] pending]; cbn [map]; split; congruence.
  - destruct (opening c) as [b |].
    + rewrite (IH ((b, line) :: pending) line). reflexivity.
    + destruct (closing c) as [b |].
      * destruct pending as [| [b' l] pending]; cbn [map fst].
        -- split; discriminate.
        -- destruct (bracket_eqb b b'); cbn [andb].
           ++ apply IH.
           ++ split; discriminate.
      * apply IH.
Qed.

(** ** Binary64 arithmetic

    Facts on the rounding of binary64, from the specification of the
    operations on sign, mantissa and exponent: multiplying by [1.0] or
    [-1.0] is exact, multiplication is commutative, and [a - b] is the
    opposite of [b - a]. *)

Section Binary64.

Local Open Scope Z_scope.

Lemma Prim2SF_one : Prim2SF 1%float = sf_one.
Proof. vm_compute. reflexivity. Qed.

Lemma Prim2SF_zero : Prim2SF 0%float = S754_zero false.
Proof. vm_compute. reflexivity. Qed.

Lemma pos_mul_shift (m : positive) :
  (4503599627370496 * m)%positive = Pos.iter xO m 52.
Proof. reflexivity. Qed.

Lemma digits_shift (m : positive) :
  Zpos (digits2_pos (Pos.iter xO m 52)) = Zpos (digits2_pos m) + 52.
Proof.
  cbn [Pos.iter digits2_pos]. lia.
Qed.

Lemma shr_shift (m : positive) :
  iter_pos shr_1 52 (Build_shr_record (Zpos (Pos.iter xO m 52)) false false)
  = Build_shr_record (Zpos m) false false.
Proof. reflexivity. Qed.

Lemma binary_round_aux_shift (s : bool) (m : positive) (e : Z) :
  bounded prec emax m e = true ->
  binary_round_aux prec emax s (Zpos (Pos.iter xO m 52)) (-52 + e) loc_Exact
  = S754_finite s m e.
Proof.
  intros Hb. unfold bounded, canonical_mantissa in Hb.
  apply andb_prop in Hb. destruct Hb as [Hc He].
  apply Z.eqb_eq in Hc.
  unfold binary_round_aux, shr_fexp.
  unfold Zdigits2 at 1. rewrite digits_shift.
  replace (Zpos (digits2_pos m) + 52 + (-52 + e)) with (Zpos (digits2_pos m) + e) by lia.
  rewrite Hc.
  replace (e - (-52 + e)) with 52 by lia.
  unfold shr at 1. unfold shr_record_of_loc.
  rewrite !shr_shift.
  cbn [shr_m loc_of_shr_record round_nearest_even].
  replace (-52 + e + 52) with e by lia.
  unfold Zdigits2. rewrite Hc. rewrite Z.sub_diag.
  cbn [shr shr_m].
  rewrite He. reflexivity.
Qed.

Lemma SF64mul_one_l (x : spec_float) :
  valid_binary x = true -> sf_is_finite x = true ->
  SF64mul sf_one x = x.
Proof.
  destruct x as [s | s | | s m e]; intros Hv Hf; try discriminate Hf.
  - reflexivity.
  - unfold SF64mul, SFmul, sf_one.
    rewrite pos_mul_shift. cbn [xorb].
    apply binary_round_aux_shift. exact Hv.
Qed.

Lemma SF64mul_one_r (x : spec_float) :
  valid_binary x = true -> sf_is_finite x = true ->
  SF64mul x sf_one = x.
Proof.
  destruct x as [s | s | | s m e]; intros Hv Hf; try discriminate Hf.
  - cbn. rewrite xorb_false_r. reflexivity.
  - unfold SF64mul, SFmul, sf_one.
    rewrite Pos.mul_comm, pos_mul_shift, xorb_false_r, Z.add_comm.
    apply binary_round_aux_shift. exact Hv.
Qed.

Lemma SFeqb_refl (x : spec_float) : sf_is_finite x = true -> SFeqb x x = true.
Proof.
  destruct x as [s | s | | s m e]; intros Hf; try discriminate Hf.
  - reflexivity.
  - unfold SFeqb, SFcompare.
    rewrite Z.compare_refl.
    change (Pos.compare_cont Eq m m) with (Pos.compare m m).
    rewrite Pos.compare_refl. destruct s; reflexivity.
Qed.

Ltac to_spec :=
  rewrite ?FloatAxioms.eqb_spec, ?add_spec, ?mul_spec, ?Prim2SF_one, ?Prim2SF_zero.

Ltac finite_cases a Ha :=
  let Hv := fresh "Hv" in
  pose proof (Prim2SF_valid a) as Hv;
  unfold isFinite in Ha;
  destruct (Prim2SF a) as [[|] | ? | | ? ? ?]; try discriminate Ha.

(** The dot product of a vector of finite numbers with a vector of the
    canonical basis: the product by [1.0] is exact, the products by [0.0]
    are zeros, and adding a zero changes at most the sign of a zero. *)
Ltac dot_basis :=
  intros Ha Hb Hc; to_spec;
  rewrite ?SF64mul_one_l, ?SF64mul_one_r by (apply Prim2SF_valid || assumption);
  match goal with
  | Ha : isFinite ?a = true, Hb : isFinite ?b = true, Hc : isFinite ?c = true |- _ =>
      finite_cases a Ha; finite_cases b Hb; finite_cases c Hc
  end;
  cbn [SF64mul SFmul SF64add SFadd xorb];
  repeat match goal with s : bool |- _ => destruct s end;
  cbn [SF64mul SFmul SF64add SFadd xorb];
  (reflexivity || (apply SFeqb_refl; reflexivity)).

Lemma dot_e1_l (a b c : float) :
  isFinite a = true -> isFinite b = true -> isFinite c = true ->
  (1 * a + 0 * b + 0 * c =? a)%float = true.
Proof. dot_basis. Qed.

Lemma dot_e2_l (a b c : float) :
  isFinite a = true -> isFinite b = true -> isFinite c = true ->
  (0 * a + 1 * b + 0 * c =? b)%float = true.
Proof. dot_basis. Qed.

Lemma dot_e3_l (a b c : float) :
  isFinite a = true -> isFinite b = true -> isFinite c = true ->
  (0 * a + 0 * b + 1 * c =? c)%float = true.
Proof. dot_basis. Qed.

Lemma dot_e1_r (a b c : float) :
  isFinite a = true -> isFinite b = true -> isFinite c = true ->
  (a * 1 + b * 0 + c * 0 =? a)%float = true.
Proof. dot_basis. Qed.

Lemma dot_e2_r (a b c : float) :
  isFinite a = true -> isFinite b = true -> isFinite c = true ->
  (a * 0 + b * 1 + c * 0 =? b)%float = true.
Proof. dot_basis. Qed.

Lemma dot_e3_r (a b c : float) :
  isFinite a = true -> isFinite b = true -> isFinite c = true ->
  (a * 0 + b * 0 + c * 1 =? c)%float = true.
Proof. dot_basis. Qed.

Lemma Prim2SF_minus_one : Prim2SF (-1)%float = sf_minus_one.
Proof. vm_compute. reflexivity. Qed.

Lemma SF64mul_comm (x y : spec_float) : SF64mul x y = SF64mul y x.
Proof.
  unfold SF64mul.
  destruct x as [sx | sx | | sx mx ex], y as [sy | sy | | sy my ey];
    cbn [SFmul]; rewrite ?(xorb_comm sx sy); try reflexivity.
  rewrite (Pos.mul_comm mx my), (Z.add_comm ex ey). reflexivity.
Qed.

Lemma SF64mul_minus_one_r (x : spec_float) :
  valid_binary x = true -> SF64mul x sf_minus_one = SFopp x.
Proof.
  destruct x as [s | s | | s m e]; intros Hv.
  - cbn. rewrite xorb_true_r. reflexivity.
  - cbn. rewrite xorb_true_r. reflexivity.
  - reflexivity.
  - unfold SF64mul, SFmul, sf_minus_one.
    rewrite Pos.mul_comm, pos_mul_shift, xorb_true_r, Z.add_comm.
    apply binary_round_aux_shift. exact Hv.
Qed.

Lemma binary_round_aux_opp (s : bool) (m e : Z) (l : location) :
  binary_round_aux prec emax (negb s) m e l
  = SFopp (binary_round_aux prec emax s m e l).
Proof.
  unfold binary_round_aux.
  destruct (shr_fexp prec emax m e l) as [mrs' e'].
  destruct (shr_fexp prec emax _ e' loc_Exact) as [mrs'' e''].
  destruct (shr_m mrs'') as [| p | p]; try reflexivity.
  destruct (e'' <=? emax - prec); reflexivity.
Qed.

Lemma binary_round_opp (s : bool) (m : positive) (e : Z) :
  binary_round prec emax (negb s) m e = SFopp (binary_round prec emax s m e).
Proof.
  unfold binary_round.
  destruct (shl_align m e _) as [mz ez].
  apply binary_round_aux_opp.
Qed.

Lemma SFeqb_refl_not_nan (x : spec_float) : sf_is_nan x = false -> SFeqb x x = true.
Proof.
  destruct x as [s | s | | s m e]; intros Hn; try discriminate Hn.
  - reflexivity.
  - destruct s; reflexivity.
  - apply SFeqb_refl. reflexivity.
Qed.

Lemma binary_round_true (m : positive) (e : Z) :
  binary_round prec emax true m e = SFopp (binary_round prec emax false m e).
Proof. exact (binary_round_opp false m e). Qed.

Lemma SFeqb_binary_normalize_opp (k e : Z) :
  sf_is_nan (binary_normalize prec emax k e false) = false ->
  SFeqb (binary_normalize prec emax k e false)
        (SFopp (binary_normalize prec emax (- k) e false)) = true.
Proof.
  destruct k as [| p | p]; cbn [binary_normalize Z.opp];
    rewrite ?binary_round_true; intros Hn.
  - reflexivity.
  - destruct (binary_round prec emax false p e) as [[|] | [|] | | [|] ? ?];
      try discriminate Hn; try reflexivity; apply SFeqb_refl; reflexivity.
  - destruct (binary_round prec emax false p e) as [[|] | [|] | | [|] ? ?];
      try discriminate Hn; try reflexivity; apply SFeqb_refl; reflexivity.
Qed.

Lemma SF64sub_anti (x y : spec_float) :
  sf_is_nan (SF64sub x y) = false ->
  SFeqb (SF64sub x y) (SFopp (SF64sub y x)) = true.
Proof.
  unfold SF64sub.
  destruct x as [sx | sx | | sx mx ex], y as [sy | sy | | sy my ey];
    cbn [SFsub SFopp]; intros Hn; try discriminate Hn;
    try (destruct sx, sy; try discriminate Hn; reflexivity);
    try (destruct sx; reflexivity);
    try (destruct sy; reflexivity).
  - apply SFeqb_refl. reflexivity.
  - rewrite negb_involutive. apply SFeqb_refl. reflexivity.
  - replace (IntDef.Z.min ey ex) with (IntDef.Z.min ex ey) by apply Z.min_comm.
    match goal with
    | |- SFeqb (binary_normalize _ _ ?k _ _) (SFopp (binary_normalize _ _ ?k' _ _)) = true =>
        replace k' with (- k) by lia
    end.
    apply SFeqb_binary_normalize_opp. exact Hn.
Qed.

Lemma cross_component_anti (p q r s : float) :
  (p * q - r * s =? p * q - r * s)%float = true ->
  (p * q - r * s =? (s * r - q * p) * (-1))%float = true.
Proof.
  rewrite !FloatAxioms.eqb_spec.
  rewrite (mul_spec (s * r - q * p)), Prim2SF_minus_one.
  rewrite SF64mul_minus_one_r by apply Prim2SF_valid.
  rewrite !sub_spec, !mul_spec.
  rewrite (SF64mul_comm (Prim2SF s) (Prim2SF r)), (SF64mul_comm (Prim2SF q) (Prim2SF p)).
  intros Hself. apply SF64sub_anti.
  destruct (SF64sub _ _); try reflexivity. discriminate Hself.
Qed.

Ltac float_ops :=
  cbv [m3x3_eqn v3_eqn m3x3_finite v3_finite m3x3_mul m3x3_identity
       m3x3_transp m3x3 v3_cross v3_scale v3_dot v3 x y z mx my mz
       eqn add sub mul lit0 lit1 F_Arith].

Ltac split_andb :=
  repeat match goal with
  | H : (_ && _)%bool = true |- _ => apply andb_prop in H; destruct H
  end.

Lemma m3x3_mul_identity_binary64 (m : mat3 float) :
  m3x3_finite m = true ->
  m3x3_eqn (m3x3_mul m3x3_identity m) m = true /\
  m3x3_eqn (m3x3_mul m m3x3_identity) m = true.
Proof.
  destruct m as [[a b c] [d e f] [g h i]]. float_ops.
  intros Hfin. split_andb.
  split.
  - rewrite (dot_e1_l a d g), (dot_e1_l b e h), (dot_e1_l c f i),
            (dot_e2_l a d g), (dot_e2_l b e h), (dot_e2_l c f i),
            (dot_e3_l a d g), (dot_e3_l b e h), (dot_e3_l c f i)
      by assumption.
    reflexivity.
  - rewrite (dot_e1_r a b c), (dot_e2_r a b c), (dot_e3_r a b c),
            (dot_e1_r d e f), (dot_e2_r d e f), (dot_e3_r d e f),
            (dot_e1_r g h i), (dot_e2_r g h i), (dot_e3_r g h i)
      by assumption.
    reflexivity.
Qed.

Lemma v3_cross_anticomm_binary64 (l r : vec3 float) :
  v3_eqn (v3_cross l r) (v3_cross l r) = true ->
  v3_eqn (v3_cross l r) (v3_scale (v3_cross r l) (-1)%float) = true.
Proof.
  destruct l as [lx ly lz], r as [rx ry rz]. float_ops.
  intros Hself. split_andb.
  rewrite (cross_component_anti ly rz lz ry),
          (cross_component_anti lz rx lx rz),
          (cross_component_anti lx ry ly rx) by assumption.
  reflexivity.
Qed.

End Binary64.

(** ** The claims *)

(** C9: the two declarations of [v3_cross], the one documented as the
    cross product and the one under the doc comment of the inversion,
    return the same vector for all arguments, over any numbers.  A call of
    [v3_cross] runs the later declaration; with either declaration alone
    it runs a function that returns the same vectors, so one definition
    suffices. *)
Theorem v3_cross_declarations_agree :
  forall (num : Type) (A : Arith num),
    (forall vl vr : vec3 num, v3_cross vl vr = v3_cross' vl vr) /\
    bound_function "v3_cross" v3_cross_declarations = Some v3_cross' /\
    bound_function "v3_cross" [("v3_cross"%string, v3_cross)] = Some v3_cross /\
    bound_function "v3_cross" [("v3_cross"%string, v3_cross')] = Some v3_cross'.
Proof.
  intros num A. split; [| repeat split].
  intros vl vr. unfold v3_cross, v3_cross'. reflexivity.
Qed.

(** C10: row [x], [y], [z] of [m3x3_mul ml mr] is the transform
    [v3_m3x3_mul] of the same row of [ml] by the transposed [mr], over
    any numbers. *)
Theorem m3x3_mul_rows :
  forall (num : Type) (A : Arith num) (ml mr : mat3 num),
    mx (m3x3_mul ml mr) = v3_m3x3_mul (mx ml) (m3x3_transp mr) /\
    my (m3x3_mul ml mr) = v3_m3x3_mul (my ml) (m3x3_transp mr) /\
    mz (m3x3_mul ml mr) = v3_m3x3_mul (mz ml) (m3x3_transp mr).
Proof.
  intros num A ml mr.
  unfold m3x3_mul, v3_m3x3_mul, m3x3. cbn [mx my mz].
  repeat split.
Qed.

(** C5: when the determinant equals [0.0] ([det == 0.0]), [m3x3_inv]
    returns [m3x3_identity()], over any numbers; on JavaScript values the
    call returns that matrix and does not throw; the inverse of the
    all-zeros matrix is the identity matrix, in binary64 and in exact
    arithmetic. *)
Theorem m3x3_inv_singular_identity :
  (forall (num : Type) (A : Arith num) (m : mat3 num),
      (m3x3_det m == lit0)%num = true -> m3x3_inv m = m3x3_identity) /\
  (forall (eng : Js.engine) (m : mat3 float),
      (m3x3_det m == lit0)%num = true ->
      Js.m3x3_inv eng (Js.of_mat3 m) = Js.m3x3_identity eng) /\
  m3x3_inv (m3x3 0 0 0 0 0 0 0 0 0)%float = m3x3_identity /\
  m3x3_inv (m3x3 0 0 0 0 0 0 0 0 0)%R = m3x3_identity.
Proof.
  assert (Hgen : forall (num : Type) (A : Arith num) (m : mat3 num),
             (m3x3_det m == lit0)%num = true -> m3x3_inv m = m3x3_identity).
  { intros num A m Hdet. unfold m3x3_inv. rewrite Hdet. reflexivity. }
  split; [exact Hgen | split; [| split]].
  - intros eng m Hdet.
    rewrite js_m3x3_inv_ok, (Hgen _ _ m Hdet). reflexivity.
  - apply Hgen. vm_compute. reflexivity.
  - apply Hgen. apply eqn_R_true.
    unfold m3x3_det, m3x3, v3. cbn. ring.
Qed.

(** The matrix of rows (1,2,3), (2,4,6), (0,0,1) has determinant 0. *)
Lemma m3x3_inv_singular_identity_witness :
  (m3x3_det (m3x3 1 2 3 2 4 6 0 0 1)%float == lit0)%num = true /\
  m3x3_inv (m3x3 1 2 3 2 4 6 0 0 1)%float = m3x3_identity /\
  Js.m3x3_inv (Js.Engine (fun _ => "0"%string) (fun _ => nan) (fun n => n) (fun n => n))
              (Js.of_mat3 (m3x3 1 2 3 2 4 6 0 0 1)%float)
  = Js.m3x3_identity
      (Js.Engine (fun _ => "0"%string) (fun _ => nan) (fun n => n) (fun n => n)).
Proof.
  split; [| split].
  - vm_compute. reflexivity.
  - apply (proj1 m3x3_inv_singular_identity). vm_compute. reflexivity.
  - apply (proj1 (proj2 m3x3_inv_singular_identity)). vm_compute. reflexivity.
Defined.

(** C4: for every head, pitch and roll [m3x3_euler] returns the matrix
    whose rows are those of section 4.2 of the specification, over any
    numbers; [m3x3_euler(0, 0, 0)] is the identity matrix in exact
    arithmetic, and in binary64 it is equal to it entry by entry ([==])
    for every [Math.sin], [Math.cos] with [sin(0) = 0] and
    [cos(0) = 1]. *)
Theorem m3x3_euler_formula :
  (forall (num : Type) (A : Arith num) (T : Trig num) (nhead npitch nroll : num),
      m3x3_euler nhead npitch nroll = spec_eulerRotation nhead npitch nroll) /\
  m3x3_euler 0%R 0%R 0%R = m3x3_identity /\
  (forall MathSin MathCos : float -> float,
      MathSin 0%float = 0%float -> MathCos 0%float = 1%float ->
      m3x3_eqn (m3x3_euler (T := F_Trig MathSin MathCos) 0 0 0)%float
               m3x3_identity = true).
Proof.
  split; [| split].
  - intros. reflexivity.
  - exact m3x3_euler_0_R.
  - intros MathSin MathCos Hsin Hcos.
    unfold m3x3_euler. cbn [sin cos F_Trig].
    rewrite Hsin, Hcos. vm_compute. reflexivity.
Qed.

(** A sine and a cosine with [sin(0) = 0] and [cos(0) = 1]. *)
Lemma m3x3_euler_formula_witness :
  m3x3_eqn (m3x3_euler (T := F_Trig (fun n => n) (fun _ => 1%float)) 0 0 0)%float
           m3x3_identity = true.
Proof.
  apply (proj2 (proj2 m3x3_euler_formula) (fun n => n) (fun _ => 1%float));
    reflexivity.
Defined.

(** C8: [m3x3_identity()] is a two-sided identity of [m3x3_mul]: for
    every matrix [m], [identity * m = m] and [m * identity = m] in exact
    arithmetic; in binary64, for every matrix [m] of finite entries, both
    products are equal to [m] entry by entry ([==]). *)
Theorem m3x3_identity_two_sided :
  (forall m : mat3 R,
      m3x3_mul m3x3_identity m = m /\ m3x3_mul m m3x3_identity = m) /\
  (forall m : mat3 float,
      m3x3_finite m = true ->
      m3x3_eqn (m3x3_mul m3x3_identity m) m = true /\
      m3x3_eqn (m3x3_mul m m3x3_identity) m = true).
Proof.
  split.
  - exact m3x3_mul_identity_R.
  - exact m3x3_mul_identity_binary64.
Qed.

(** A matrix of finite entries, one of them subnormal. *)
Lemma m3x3_identity_two_sided_witness :
  m3x3_finite (m3x3 0.1 (-0.2) 0.3 4 5 (-6) 7e-310 8 9e300)%float = true /\
  m3x3_eqn (m3x3_mul m3x3_identity
              (m3x3 0.1 (-0.2) 0.3 4 5 (-6) 7e-310 8 9e300)%float)
           (m3x3 0.1 (-0.2) 0.3 4 5 (-6) 7e-310 8 9e300)%float = true /\
  m3x3_eqn (m3x3_mul (m3x3 0.1 (-0.2) 0.3 4 5 (-6) 7e-310 8 9e300)%float
              m3x3_identity)
           (m3x3 0.1 (-0.2) 0.3 4 5 (-6) 7e-310 8 9e300)%float = true.
Proof.
  split.
  - vm_compute. reflexivity.
  - apply (proj2 m3x3_identity_two_sided). vm_compute. reflexivity.
Defined.

(** C1, as the specification states it, fails: the code computes in
    binary64, where a determinant that is not zero does not make the
    product close to the identity matrix.  For the matrix with 1e150 on
    the diagonal the determinant overflows to Infinity, [1.0 / det] is 0,
    [m3x3_inv] returns the matrix of zeros and the product is the matrix
    of zeros.  For the matrix of rows (1, 2, 3), (4, 5, 6),
    (7, 8, 9.000000000000002) every number computed is finite and the
    product has 0.5, 1 and -1 off the diagonal. *)
Lemma m3x3_inv_mul_binary64_not_identity :
  (m3x3_det (m3x3 1e150 0 0 0 1e150 0 0 0 1e150)%float == lit0)%num = false /\
  m3x3_det (m3x3 1e150 0 0 0 1e150 0 0 0 1e150)%float = infinity /\
  m3x3_mul (m3x3_inv (m3x3 1e150 0 0 0 1e150 0 0 0 1e150)%float)
           (m3x3 1e150 0 0 0 1e150 0 0 0 1e150)%float
  = (m3x3 0 0 0 0 0 0 0 0 0)%float /\
  m3x3_near 0.5
    (m3x3_mul (m3x3_inv (m3x3 1e150 0 0 0 1e150 0 0 0 1e150)%float)
              (m3x3 1e150 0 0 0 1e150 0 0 0 1e150)%float)
    m3x3_identity = false /\
  (m3x3_det (m3x3 1 2 3 4 5 6 7 8 9.000000000000002)%float == lit0)%num = false /\
  m3x3_finite (m3x3_inv (m3x3 1 2 3 4 5 6 7 8 9.000000000000002)%float) = true /\
  m3x3_mul (m3x3_inv (m3x3 1 2 3 4 5 6 7 8 9.000000000000002)%float)
           (m3x3 1 2 3 4 5 6 7 8 9.000000000000002)%float
  = (m3x3 1 0.5 1 0 1 (-1) 0 0 1)%float /\
  m3x3_near 0.25
    (m3x3_mul (m3x3_inv (m3x3 1 2 3 4 5 6 7 8 9.000000000000002)%float)
              (m3x3 1 2 3 4 5 6 7 8 9.000000000000002)%float)
    m3x3_identity = false.
Proof. repeat split; vm_compute; reflexivity. Qed.

(** C1, amended: in exact arithmetic, for every matrix [m] whose
    determinant (the cofactor expansion along the first row) is not zero,
    [m3x3_mul(m3x3_inv(m), m)] is the identity matrix; every matrix of
    [m3x3_euler] has determinant 1, so the equation holds for it, in
    particular for [m3x3_euler(0.3, 0.1, -0.2)].  In binary64 the
    statement is made for that matrix only: whenever [Math.sin] and
    [Math.cos] return, at 0.3, 0.1 and -0.2, the correctly rounded value
    or one of its two neighbours, every entry of the product for
    [m3x3_euler(0.3, 0.1, -0.2)] is within 1e-15 of the entry of the
    identity matrix. *)
Theorem m3x3_inv_mul_identity :
  (forall m : mat3 R,
      m3x3_det m <> 0%R -> m3x3_mul (m3x3_inv m) m = m3x3_identity) /\
  (forall nhead npitch nroll : R,
      m3x3_det (m3x3_euler nhead npitch nroll) = 1%R /\
      m3x3_mul (m3x3_inv (m3x3_euler nhead npitch nroll))
               (m3x3_euler nhead npitch nroll) = m3x3_identity) /\
  m3x3_mul (m3x3_inv (m3x3_euler 0.3 0.1 (-0.2))%R)
           (m3x3_euler 0.3 0.1 (-0.2))%R = m3x3_identity /\
  (forall MathSin MathCos : float -> float,
      within_ulp 0.29552020666133955%float (MathSin 0.3%float) ->
      within_ulp 0.955336489125606%float (MathCos 0.3%float) ->
      within_ulp 0.09983341664682815%float (MathSin 0.1%float) ->
      within_ulp 0.9950041652780258%float (MathCos 0.1%float) ->
      within_ulp (-0.19866933079506122)%float (MathSin (-0.2)%float) ->
      within_ulp 0.9800665778412416%float (MathCos (-0.2)%float) ->
      m3x3_near 1e-15
        (m3x3_mul
           (m3x3_inv (m3x3_euler (T := F_Trig MathSin MathCos) 0.3 0.1 (-0.2))%float)
           (m3x3_euler (T := F_Trig MathSin MathCos) 0.3 0.1 (-0.2))%float)
        m3x3_identity = true).
Proof.
  assert (Heuler : forall h p r : R,
             m3x3_mul (m3x3_inv (m3x3_euler h p r)) (m3x3_euler h p r)
             = m3x3_identity).
  { intros h p r. apply m3x3_inv_mul_R. rewrite m3x3_euler_det_R. lra. }
  split; [exact m3x3_inv_mul_R | split; [| split]].
  - intros h p r. split; [apply m3x3_euler_det_R | apply Heuler].
  - apply Heuler.
  - intros MathSin MathCos Hsh Hch Hsp Hcp Hsr Hcr.
    unfold m3x3_euler. cbn [sin cos F_Trig].
    unfold within_ulp in *.
    destruct Hsh as [-> | [-> | ->]], Hch as [-> | [-> | ->]],
             Hsp as [-> | [-> | ->]], Hcp as [-> | [-> | ->]],
             Hsr as [-> | [-> | ->]], Hcr as [-> | [-> | ->]];
      vm_compute; reflexivity.
Qed.

(** The matrix of rows (2,0,1), (1,3,0), (0,1,4) has determinant 25; a
    sine and a cosine that return the correctly rounded values at 0.3, 0.1
    and -0.2, but for the cosine of 0.1, where they return the neighbour
    below, 0.9950041652780257. *)
Lemma m3x3_inv_mul_identity_witness :
  (m3x3_det (m3x3 2 0 1 1 3 0 0 1 4)%R <> 0%R /\
   m3x3_mul (m3x3_inv (m3x3 2 0 1 1 3 0 0 1 4)%R) (m3x3 2 0 1 1 3 0 0 1 4)%R
   = m3x3_identity) /\
  m3x3_near 1e-15
    (m3x3_mul
       (m3x3_inv
          (m3x3_euler
             (T := F_Trig
                (fun n => if PrimFloat.eqb n 0.3 then 0.29552020666133955
                          else if PrimFloat.eqb n 0.1 then 0.09983341664682815
                          else -0.19866933079506122)%float
                (fun n => if PrimFloat.eqb n 0.3 then 0.955336489125606
                          else if PrimFloat.eqb n 0.1 then 0.9950041652780257
                          else 0.9800665778412416)%float)
             0.3 0.1 (-0.2))%float)
       (m3x3_euler
          (T := F_Trig
             (fun n => if PrimFloat.eqb n 0.3 then 0.29552020666133955
                       else if PrimFloat.eqb n 0.1 then 0.09983341664682815
                       else -0.19866933079506122)%float
             (fun n => if PrimFloat.eqb n 0.3 then 0.955336489125606
                       else if PrimFloat.eqb n 0.1 then 0.9950041652780257
                       else 0.9800665778412416)%float)
          0.3 0.1 (-0.2))%float)
    m3x3_identity = true.
Proof.
  assert (Hdet : m3x3_det (m3x3 2 0 1 1 3 0 0 1 4)%R <> 0%R).
  { unfold m3x3_det, m3x3, v3. cbn. lra. }
  split.
  - split; [exact Hdet | apply (proj1 m3x3_inv_mul_identity); exact Hdet].
  - apply (proj2 (proj2 (proj2 m3x3_inv_mul_identity)));
      unfold within_ulp;
      first [ right; left; reflexivity | left; reflexivity ].
Defined.

(** C2, as the specification states it, fails: in exact arithmetic the
    transform of (1, 0, 0) by [m3x3_euler(PI/2, 0, 0)] has [y = 0] and
    [z = -1]; it is not (0, -1, 0). *)
Lemma transform_quarter_head_is_not_minus_y :
  y (v3_m3x3_mul (V3 1 0 0)%R (m3x3_euler (PI / 2) 0 0)%R) = 0%R /\
  z (v3_m3x3_mul (V3 1 0 0)%R (m3x3_euler (PI / 2) 0 0)%R) = (-1)%R /\
  v3_m3x3_mul (V3 1 0 0)%R (m3x3_euler (PI / 2) 0 0)%R <> (V3 0 (-1) 0)%R.
Proof.
  rewrite transform_head_PI2_R. cbn [y z].
  repeat split.
  intros H. apply (f_equal y) in H. cbn [y] in H. lra.
Qed.

(** C2, amended: [v3_m3x3_mul(v, m)] is the vector of the dot products of
    [v] with the three rows of [m], over any numbers; the transform of
    (1, 0, 0) by [m3x3_euler(PI/2, 0, 0)] is (0, 0, -1) in exact
    arithmetic, and (6.123233995736766e-17, 0, -1) in binary64 with the
    values of [Math.sin] and [Math.cos] at 0 and at [Math.PI / 2] (0 and
    1, 1 and 6.123233995736766e-17); the transform of (1, 0, 0) by the
    identity matrix is (1, 0, 0), in exact arithmetic and in binary64. *)
Theorem transform_golden_values :
  (forall (num : Type) (A : Arith num) (vl : vec3 num) (mr : mat3 num),
      v3_m3x3_mul vl mr
      = V3 (v3_dot vl (mx mr)) (v3_dot vl (my mr)) (v3_dot vl (mz mr))) /\
  v3_m3x3_mul (V3 1 0 0)%R (m3x3_euler (PI / 2) 0 0)%R = (V3 0 0 (-1))%R /\
  (forall MathSin MathCos : float -> float,
      MathSin 0%float = 0%float -> MathCos 0%float = 1%float ->
      MathSin (3.141592653589793 / 2)%float = 1%float ->
      MathCos (3.141592653589793 / 2)%float = 6.123233995736766e-17%float ->
      v3_m3x3_mul (V3 1 0 0)%float
        (m3x3_euler (T := F_Trig MathSin MathCos) (3.141592653589793 / 2) 0 0)%float
      = (V3 6.123233995736766e-17 0 (-1))%float) /\
  v3_m3x3_mul (V3 1 0 0)%R m3x3_identity = (V3 1 0 0)%R /\
  v3_m3x3_mul (V3 1 0 0)%float m3x3_identity = (V3 1 0 0)%float.
Proof.
  split; [| split; [| split; [| split]]].
  - intros. reflexivity.
  - exact transform_head_PI2_R.
  - intros MathSin MathCos Hs0 Hc0 Hs Hc.
    unfold m3x3_euler. cbn [sin cos F_Trig].
    rewrite Hs0, Hc0, Hs, Hc. vm_compute. reflexivity.
  - unfold v3_m3x3_mul, m3x3_identity, m3x3, v3_dot, v3. cbn.
    f_equal; ring.
  - vm_compute. reflexivity.
Qed.

(** A sine and a cosine with the stated values at 0 and at
    [Math.PI / 2]. *)
Lemma transform_golden_values_witness :
  v3_m3x3_mul (V3 1 0 0)%float
    (m3x3_euler
       (T := F_Trig (fun n => if PrimFloat.eqb n 0 then 0 else 1)%float
                    (fun n => if PrimFloat.eqb n 0 then 1
                              else 6.123233995736766e-17)%float)
       (3.141592653589793 / 2) 0 0)%float
  = (V3 6.123233995736766e-17 0 (-1))%float.
Proof.
  apply (proj1 (proj2 (proj2 transform_golden_values))); reflexivity.
Defined.

(** C7, as the specification states it, fails: the code computes in
    binary64, where the products and differences round, and the dot
    product of [v3_cross(l, r)] with [l] is not zero for
    [l = (0.1, 0.2, 0.3)] and [r = (1, 1, 1)]. *)
Lemma v3_cross_orthogonal_binary64_inexact :
  v3_dot (v3_cross (V3 0.1 0.2 0.3) (V3 1 1 1))%float (V3 0.1 0.2 0.3)%float
  = 3.469446951953614e-18%float /\
  (v3_dot (v3_cross (V3 0.1 0.2 0.3) (V3 1 1 1))%float (V3 0.1 0.2 0.3)%float
   == lit0)%num = false.
Proof. split; vm_compute; reflexivity. Qed.

(** C7, amended: in exact arithmetic, for all vectors [l] and [r],
    [v3_cross(l, r)] is [v3_cross(r, l)] scaled by -1 and its dot products
    with [l] and with [r] are 0; in binary64 [v3_cross(l, r)] is equal
    entry by entry ([==]) to [v3_cross(r, l)] scaled by -1 whenever none
    of its components is not-a-number (each is [==] to itself), and the
    dot products need not be 0, nor close to it: the dot product with [l]
    is 3.469446951953614e-18 for [l = (0.1, 0.2, 0.3)], [r = (1, 1, 1)],
    and it is not-a-number for [l = (1e160, 2e160, 3e160)],
    [r = (1.1, 1.3, 1.7)], where no component of the cross product is
    not-a-number; [v3_cross((1,0,0), (0,1,0))] is (0, 0, 1) and
    [v3_cross((0,1,0), (1,0,0))] is (0, 0, -1), in exact arithmetic and in
    binary64. *)
Theorem v3_cross_laws :
  (forall l r : vec3 R,
      v3_cross l r = v3_scale (v3_cross r l) (-1)%R /\
      v3_dot (v3_cross l r) l = 0%R /\
      v3_dot (v3_cross l r) r = 0%R) /\
  (forall l r : vec3 float,
      v3_eqn (v3_cross l r) (v3_cross l r) = true ->
      v3_eqn (v3_cross l r) (v3_scale (v3_cross r l) (-1)%float) = true) /\
  v3_cross (V3 1 0 0)%R (V3 0 1 0)%R = (V3 0 0 1)%R /\
  v3_cross (V3 0 1 0)%R (V3 1 0 0)%R = (V3 0 0 (-1))%R /\
  v3_cross (V3 1 0 0)%float (V3 0 1 0)%float = (V3 0 0 1)%float /\
  v3_cross (V3 0 1 0)%float (V3 1 0 0)%float = (V3 0 0 (-1))%float /\
  v3_dot (v3_cross (V3 0.1 0.2 0.3) (V3 1 1 1))%float (V3 0.1 0.2 0.3)%float
  = 3.469446951953614e-18%float /\
  v3_has_nan (v3_cross (V3 1e160 2e160 3e160) (V3 1.1 1.3 1.7))%float = false /\
  isNaN (v3_dot (v3_cross (V3 1e160 2e160 3e160) (V3 1.1 1.3 1.7))%float
                (V3 1e160 2e160 3e160)%float) = true.
Proof.
  split; [| split; [| split; [| split; [| split; [| split; [| split; [| split]]]]]]].
  - intros l r. split; [apply v3_cross_anticomm_R | apply v3_cross_orth_R].
  - exact v3_cross_anticomm_binary64.
  - unfold v3_cross, v3. cbn. f_equal; ring.
  - unfold v3_cross, v3. cbn. f_equal; ring.
  - vm_compute. reflexivity.
  - vm_compute. reflexivity.
  - vm_compute. reflexivity.
  - vm_compute. reflexivity.
  - vm_compute. reflexivity.
Qed.

(** No component of [v3_cross((0.1, 0.2, 0.3), (1, 1, 1))] is
    not-a-number. *)
Lemma v3_cross_laws_witness :
  v3_eqn (v3_cross (V3 0.1 0.2 0.3) (V3 1 1 1))%float
         (v3_cross (V3 0.1 0.2 0.3) (V3 1 1 1))%float = true /\
  v3_eqn (v3_cross (V3 0.1 0.2 0.3) (V3 1 1 1))%float
         (v3_scale (v3_cross (V3 1 1 1) (V3 0.1 0.2 0.3)) (-1))%float = true.
Proof.
  split.
  - vm_compute. reflexivity.
  - apply (proj1 (proj2 v3_cross_laws)). vm_compute. reflexivity.
Defined.

(** C3: the vector that the specification describes is never returned.
    The text of [v3_unit] opens the call [v3(] on line 112 of the source
    and the next bracket is the [}] of line 117, which ends the function
    body with the call still open, where [v3_scale] and every other
    function of the file close the same call with [);].  A text nests
    exactly when it has no such error; this one has, the script is rejected
    as a whole, and a call of [v3_unit], whatever its argument, is never
    made: there is the [SyntaxError] and no vector. *)
Theorem v3_unit_call_left_open :
  check_nesting [] 109 v3_unit_source = Unmatched Curly 117 (Some (Round, 112)) /\
  check_nesting [] 81 v3_scale_source = Nested /\
  (forall (text : string) (line : nat),
      check_nesting [] line text = Nested <-> early_error text = None) /\
  (forall call : Js.expr,
      call_in_script v3_unit_source call = Js.Throw Js.SyntaxError).
Proof.
  split; [vm_compute; reflexivity | split; [vm_compute; reflexivity | split]].
  - intros text line. rewrite (check_nesting_nested text [] line). cbn [map].
    unfold early_error. destruct (brackets_nest [] text); split; congruence.
  - intros call. reflexivity.
Qed.

(** C6: the text of [v3_unit] opens the call [v3(] and never closes it:
    its brackets do not nest, the script is rejected with a
    [SyntaxError], and no function of the library can be called.  The
    declaration of [v3_scale], which ends the same call with [);], is well
    nested. *)
Theorem v3_unit_source_rejected :
  brackets_nest [] v3_unit_source = false /\
  early_error v3_unit_source = Some Js.SyntaxError /\
  brackets_nest [] v3_scale_source = true.
Proof. repeat split; vm_compute; reflexivity. Qed.

(** * More of the library

    Properties of the functions beyond the claims: how the operations
    compose, what they do at the edges of binary64, and when a call on
    untyped values throws. *)

(** ** Exact arithmetic, continued *)

Section ExactMore.
Local Open Scope R_scope.

Ltac R_unfold :=
  cbv [m3x3_mul m3x3_det m3x3_identity m3x3_transp m3x3 v3_m3x3_mul
       v3_add v3_sub v3_cross v3_scale v3_dot v3 x y z mx my mz
       add sub mul div neg lit0 lit1 R_Arith] in *.

Ltac R_vec :=
  repeat match goal with
  | m : mat3 R |- _ => destruct m as [[? ? ?] [? ? ?] [? ? ?]]
  | v : vec3 R |- _ => destruct v as [? ? ?]
  end;
  R_unfold.

Ltac vec_eq := apply (f_equal3 (@V3 R)).
Ltac mat_eq := apply (f_equal3 (@M3 R)); vec_eq.

Lemma m3x3_mul_assoc_R (a b c : mat3 R) :
  m3x3_mul (m3x3_mul a b) c = m3x3_mul a (m3x3_mul b c).
Proof. R_vec. mat_eq; ring. Qed.

Lemma m3x3_det_mul_R (a b : mat3 R) :
  m3x3_det (m3x3_mul a b) = m3x3_det a * m3x3_det b.
Proof. R_vec. ring. Qed.

Lemma m3x3_det_transp_R (a : mat3 R) : m3x3_det (m3x3_transp a) = m3x3_det a.
Proof. R_vec. ring. Qed.

Lemma m3x3_det_triple_R (m : mat3 R) :
  m3x3_det m = v3_dot (mx m) (v3_cross (my m) (mz m)).
Proof. R_vec. ring. Qed.

Lemma m3x3_mul_inv_R (m : mat3 R) :
  m3x3_det m <> 0 -> m3x3_mul m (m3x3_inv m) = m3x3_identity.
Proof.
  intros Hdet. unfold m3x3_inv.
  rewrite eqn_R_false by exact Hdet.
  destruct m as [[a b c] [d e f] [g h i]].
  unfold m3x3_det in *. cbn in *.
  unfold m3x3_mul, m3x3_identity, m3x3_transp, m3x3, v3_dot, v3. cbn.
  repeat f_equal; field; exact Hdet.
Qed.

Lemma m3x3_det_inv_R (m : mat3 R) :
  m3x3_det m <> 0 -> m3x3_det (m3x3_inv m) = / m3x3_det m.
Proof.
  intros Hdet.
  pose proof (m3x3_det_mul_R m (m3x3_inv m)) as H.
  rewrite (m3x3_mul_inv_R m Hdet) in H.
  assert (H1 : m3x3_det (@m3x3_identity R _) = 1) by (R_unfold; ring).
  rewrite H1 in H.
  apply (Rmult_eq_reg_l (m3x3_det m)); [| exact Hdet].
  rewrite <- H. field. exact Hdet.
Qed.

Lemma m3x3_mul_identity_l_R (m : mat3 R) : m3x3_mul m3x3_identity m = m.
Proof. R_vec. mat_eq; ring. Qed.

Lemma m3x3_mul_identity_r_R (m : mat3 R) : m3x3_mul m m3x3_identity = m.
Proof. R_vec. mat_eq; ring. Qed.

(** A left inverse and a right inverse of one matrix are equal. *)
Lemma m3x3_inverse_unique_R (m l r : mat3 R) :
  m3x3_mul l m = m3x3_identity -> m3x3_mul m r = m3x3_identity -> l = r.
Proof.
  intros Hl Hr.
  rewrite <- (m3x3_mul_identity_r_R l), <- Hr, <- m3x3_mul_assoc_R, Hl.
  apply m3x3_mul_identity_l_R.
Qed.

Lemma m3x3_inv_inv_R (m : mat3 R) :
  m3x3_det m <> 0 -> m3x3_inv (m3x3_inv m) = m.
Proof.
  intros Hdet.
  assert (Hdi : m3x3_det (m3x3_inv m) <> 0).
  { rewrite m3x3_det_inv_R by exact Hdet. apply Rinv_neq_0_compat, Hdet. }
  apply (m3x3_inverse_unique_R (m3x3_inv m)).
  - apply m3x3_inv_mul_R. exact Hdi.
  - apply m3x3_inv_mul_R. exact Hdet.
Qed.

Lemma m3x3_inv_mul_rev_R (a b : mat3 R) :
  m3x3_det a <> 0 -> m3x3_det b <> 0 ->
  m3x3_inv (m3x3_mul a b) = m3x3_mul (m3x3_inv b) (m3x3_inv a).
Proof.
  intros Ha Hb.
  assert (Hab : m3x3_det (m3x3_mul a b) <> 0).
  { rewrite m3x3_det_mul_R. apply Rmult_integral_contrapositive_currified; assumption. }
  apply (m3x3_inverse_unique_R (m3x3_mul a b)).
  - apply m3x3_inv_mul_R. exact Hab.
  - rewrite m3x3_mul_assoc_R, <- (m3x3_mul_assoc_R b).
    rewrite (m3x3_mul_inv_R b Hb), m3x3_mul_identity_l_R.
    apply m3x3_mul_inv_R. exact Ha.
Qed.

Lemma m3x3_inv_singular_not_inverse_R (m : mat3 R) :
  m3x3_det m = 0 ->
  m3x3_mul (m3x3_inv m) m = m /\ m3x3_mul (m3x3_inv m) m <> m3x3_identity.
Proof.
  intros Hdet.
  assert (Hinv : m3x3_inv m = m3x3_identity).
  { unfold m3x3_inv. rewrite (proj2 (eqn_R_true _ _)) by exact Hdet. reflexivity. }
  rewrite Hinv, m3x3_mul_identity_l_R. split; [reflexivity |].
  intros Hm. rewrite Hm in Hdet. R_unfold. lra.
Qed.

Lemma transform_compose_R (v : vec3 R) (a b : mat3 R) :
  v3_m3x3_mul (v3_m3x3_mul v a) b = v3_m3x3_mul v (m3x3_mul b a).
Proof. R_vec. vec_eq; ring. Qed.

Lemma transform_linear_R (l r : vec3 R) (s : R) (m : mat3 R) :
  v3_m3x3_mul (v3_add l r) m = v3_add (v3_m3x3_mul l m) (v3_m3x3_mul r m) /\
  v3_m3x3_mul (v3_scale l s) m = v3_scale (v3_m3x3_mul l m) s.
Proof. R_vec. split; vec_eq; ring. Qed.

Lemma transform_identity_R (v : vec3 R) : v3_m3x3_mul v m3x3_identity = v.
Proof. R_vec. vec_eq; ring. Qed.

Lemma v3_cross_lagrange_R (l r : vec3 R) :
  v3_dot (v3_cross l r) (v3_cross l r)
  = v3_dot l l * v3_dot r r - v3_dot l r * v3_dot l r.
Proof. R_vec. ring. Qed.

Lemma v3_dot_self_nonneg_R (v : vec3 R) : 0 <= v3_dot v v.
Proof. R_vec. nra. Qed.

Lemma cauchy_schwarz_R (l r : vec3 R) :
  v3_dot l r * v3_dot l r <= v3_dot l l * v3_dot r r.
Proof.
  pose proof (v3_cross_lagrange_R l r) as H.
  pose proof (v3_dot_self_nonneg_R (v3_cross l r)) as H0. lra.
Qed.

Lemma trig_one (a : R) : Rtrigo_def.sin a * Rtrigo_def.sin a + Rtrigo_def.cos a * Rtrigo_def.cos a = 1.
Proof. pose proof (sin2_cos2 a) as H. unfold Rsqr in H. exact H. Qed.

Lemma m3x3_euler_decompose_R (h p r : R) :
  m3x3_euler h p r
  = m3x3_mul (m3x3_mul (m3x3_euler 0 0 r) (m3x3_euler 0 p 0)) (m3x3_euler h 0 0).
Proof.
  unfold m3x3_euler. cbn [sin cos R_Trig]. rewrite sin_0, cos_0.
  R_unfold. mat_eq; ring.
Qed.

Lemma m3x3_euler_orthogonal_R (h p r : R) :
  m3x3_mul (m3x3_euler h p r) (m3x3_transp (m3x3_euler h p r)) = m3x3_identity.
Proof.
  unfold m3x3_euler. cbn [sin cos R_Trig].
  pose proof (trig_one h) as Hh. pose proof (trig_one p) as Hp.
  pose proof (trig_one r) as Hr.
  generalize dependent (Rtrigo_def.sin h). generalize dependent (Rtrigo_def.cos h).
  generalize dependent (Rtrigo_def.sin p). generalize dependent (Rtrigo_def.cos p).
  generalize dependent (Rtrigo_def.sin r). generalize dependent (Rtrigo_def.cos r).
  intros cr sr Hr cp sp Hp ch sh Hh.
  R_unfold. mat_eq; nsatz.
Qed.

Lemma m3x3_euler_transp_orthogonal_R (h p r : R) :
  m3x3_mul (m3x3_transp (m3x3_euler h p r)) (m3x3_euler h p r) = m3x3_identity.
Proof.
  unfold m3x3_euler. cbn [sin cos R_Trig].
  pose proof (trig_one h) as Hh. pose proof (trig_one p) as Hp.
  pose proof (trig_one r) as Hr.
  generalize dependent (Rtrigo_def.sin h). generalize dependent (Rtrigo_def.cos h).
  generalize dependent (Rtrigo_def.sin p). generalize dependent (Rtrigo_def.cos p).
  generalize dependent (Rtrigo_def.sin r). generalize dependent (Rtrigo_def.cos r).
  intros cr sr Hr cp sp Hp ch sh Hh.
  R_unfold. mat_eq; nsatz.
Qed.

Lemma m3x3_inv_euler_R (h p r : R) :
  m3x3_inv (m3x3_euler h p r) = m3x3_transp (m3x3_euler h p r).
Proof.
  apply (m3x3_inverse_unique_R (m3x3_euler h p r)).
  - apply m3x3_inv_mul_R. rewrite m3x3_euler_det_R. lra.
  - apply m3x3_euler_orthogonal_R.
Qed.

(** [dot (m u) (m v) = dot u (m^T m v)]. *)
Lemma transform_dot_R (u v : vec3 R) (m : mat3 R) :
  v3_dot (v3_m3x3_mul u m) (v3_m3x3_mul v m)
  = v3_dot u (v3_m3x3_mul v (m3x3_mul (m3x3_transp m) m)).
Proof. R_vec. ring. Qed.

Lemma euler_preserves_dot_R (u v : vec3 R) (h p r : R) :
  v3_dot (v3_m3x3_mul u (m3x3_euler h p r)) (v3_m3x3_mul v (m3x3_euler h p r))
  = v3_dot u v.
Proof.
  rewrite transform_dot_R, m3x3_euler_transp_orthogonal_R, transform_identity_R.
  reflexivity.
Qed.

Lemma v3_len_dot_R (v : vec3 R) : v3_len v = R_sqrt.sqrt (v3_dot v v).
Proof. reflexivity. Qed.

Lemma euler_preserves_len_R (v : vec3 R) (h p r : R) :
  v3_len (v3_m3x3_mul v (m3x3_euler h p r)) = v3_len v.
Proof. rewrite !v3_len_dot_R, euler_preserves_dot_R. reflexivity. Qed.

Lemma m3x3_euler_head_add_R (h1 h2 : R) :
  m3x3_euler (h1 + h2) 0 0 = m3x3_mul (m3x3_euler h1 0 0) (m3x3_euler h2 0 0).
Proof.
  unfold m3x3_euler. cbn [sin cos R_Trig].
  rewrite sin_0, cos_0, sin_plus, cos_plus. R_unfold. mat_eq; ring.
Qed.

Lemma m3x3_euler_pitch_add_R (p1 p2 : R) :
  m3x3_euler 0 (p1 + p2) 0 = m3x3_mul (m3x3_euler 0 p1 0) (m3x3_euler 0 p2 0).
Proof.
  unfold m3x3_euler. cbn [sin cos R_Trig].
  rewrite sin_0, cos_0, sin_plus, cos_plus. R_unfold. mat_eq; ring.
Qed.

Lemma m3x3_euler_roll_add_R (r1 r2 : R) :
  m3x3_euler 0 0 (r1 + r2) = m3x3_mul (m3x3_euler 0 0 r1) (m3x3_euler 0 0 r2).
Proof.
  unfold m3x3_euler. cbn [sin cos R_Trig].
  rewrite sin_0, cos_0, sin_plus, cos_plus. R_unfold. mat_eq; ring.
Qed.

Lemma v3_len_nonneg_R (v : vec3 R) : 0 <= v3_len v.
Proof. rewrite v3_len_dot_R. apply sqrt_pos. Qed.

Lemma v3_len_zero_iff_R (v : vec3 R) : v3_len v = 0 <-> v = V3 0 0 0.
Proof.
  split.
  - intros H. rewrite v3_len_dot_R in H.
    apply sqrt_eq_0 in H; [| apply v3_dot_self_nonneg_R].
    destruct v as [a b c]. R_unfold.
    assert (a = 0) by nra. assert (b = 0) by nra. assert (c = 0) by nra.
    subst. reflexivity.
  - intros ->. rewrite v3_len_dot_R. R_unfold.
    replace (0 * 0 + 0 * 0 + 0 * 0) with 0 by ring. apply sqrt_0.
Qed.

Lemma v3_len_scale_R (v : vec3 R) (s : R) :
  v3_len (v3_scale v s) = Rabs s * v3_len v.
Proof.
  rewrite !v3_len_dot_R.
  replace (v3_dot (v3_scale v s) (v3_scale v s)) with (Rsqr s * v3_dot v v)
    by (destruct v; R_unfold; unfold Rsqr; ring).
  rewrite sqrt_mult; [| apply Rle_0_sqr | apply v3_dot_self_nonneg_R].
  rewrite sqrt_Rsqr_abs. reflexivity.
Qed.

Lemma v3_dot_le_len_R (l r : vec3 R) : Rabs (v3_dot l r) <= v3_len l * v3_len r.
Proof.
  rewrite !v3_len_dot_R.
  rewrite <- sqrt_mult; [| apply v3_dot_self_nonneg_R | apply v3_dot_self_nonneg_R].
  rewrite <- sqrt_Rsqr_abs. apply sqrt_le_1.
  - apply Rle_0_sqr.
  - apply Rmult_le_pos; apply v3_dot_self_nonneg_R.
  - unfold Rsqr. apply cauchy_schwarz_R.
Qed.

Lemma v3_len_triangle_R (l r : vec3 R) :
  v3_len (v3_add l r) <= v3_len l + v3_len r.
Proof.
  pose proof (v3_len_nonneg_R l) as Hl. pose proof (v3_len_nonneg_R r) as Hr.
  pose proof (v3_len_nonneg_R (v3_add l r)) as Hlr.
  pose proof (v3_dot_le_len_R l r) as Hcs.
  pose proof (v3_len_sqr_R l) as Sl. pose proof (v3_len_sqr_R r) as Sr.
  pose proof (v3_len_sqr_R (v3_add l r)) as Slr.
  assert (Hd : v3_dot l r <= v3_len l * v3_len r).
  { eapply Rle_trans; [apply Rle_abs | exact Hcs]. }
  assert (Hsq : v3_len (v3_add l r) * v3_len (v3_add l r)
                <= (v3_len l + v3_len r) * (v3_len l + v3_len r)).
  { rewrite Slr. destruct l as [a b c], r as [d e f]. R_unfold. cbn [x y z] in *. nra. }
  nra.
Qed.

(** Scaling by the inverse of the length: the vector that the
    specification calls the unit vector, computed by [v3_scale] and
    [v3_len]. *)
Lemma v3_len_normalized_R (v : vec3 R) :
  v3_len v <> 0 -> v3_len (v3_scale v (1 / v3_len v)) = 1.
Proof.
  intros Hlen. pose proof (v3_len_nonneg_R v) as Hpos.
  rewrite v3_len_scale_R, Rabs_pos_eq.
  - field. exact Hlen.
  - apply Rlt_le. apply Rdiv_lt_0_compat; lra.
Qed.

Lemma v3_normalized_idempotent_R (v : vec3 R) :
  v3_len v <> 0 ->
  v3_scale (v3_scale v (1 / v3_len v))
           (1 / v3_len (v3_scale v (1 / v3_len v)))
  = v3_scale v (1 / v3_len v).
Proof.
  intros Hlen. rewrite (v3_len_normalized_R v Hlen).
  destruct (v3_scale v (1 / v3_len v)) as [a b c].
  cbv [v3_scale v3 x y z mul R_Arith].
  vec_eq; field.
Qed.

Lemma v3_normalized_scale_R (v : vec3 R) (s : R) :
  0 < s -> v3_len v <> 0 ->
  v3_scale (v3_scale v s) (1 / v3_len (v3_scale v s))
  = v3_scale v (1 / v3_len v).
Proof.
  intros Hs Hlen.
  rewrite v3_len_scale_R, (Rabs_pos_eq s) by lra.
  destruct v as [a b c].
  remember (v3_len (V3 a b c)) as L.
  cbv [v3_scale v3 x y z mul R_Arith].
  vec_eq; field; split; lra.
Qed.

Lemma v3_normalized_dot_bounds_R (a b : vec3 R) :
  v3_len a <> 0 -> v3_len b <> 0 ->
  -1 <= v3_dot (v3_scale a (1 / v3_len a)) (v3_scale b (1 / v3_len b)) <= 1.
Proof.
  intros Ha Hb.
  pose proof (v3_dot_le_len_R (v3_scale a (1 / v3_len a))
                              (v3_scale b (1 / v3_len b))) as H.
  rewrite (v3_len_normalized_R a Ha), (v3_len_normalized_R b Hb) in H.
  unfold Rabs in H. destruct (Rcase_abs _); lra.
Qed.

Lemma m3x3_mul_not_comm_R :
  exists a b : mat3 R, m3x3_mul a b <> m3x3_mul b a.
Proof.
  exists (m3x3 0 1 0 0 0 0 0 0 0), (m3x3 0 0 0 1 0 0 0 0 0).
  intros H. apply (f_equal (fun m => x (mx m))) in H. R_unfold. lra.
Qed.

Lemma v3_add_comm_R (l r : vec3 R) : v3_add l r = v3_add r l.
Proof. R_vec. vec_eq; ring. Qed.

Lemma v3_dot_comm_R (l r : vec3 R) : v3_dot l r = v3_dot r l.
Proof. R_vec. ring. Qed.

Lemma v3_sub_add_scale_R (l r : vec3 R) :
  v3_sub l r = v3_add l (v3_scale r (-1)).
Proof. R_vec. vec_eq; ring. Qed.

Lemma v3_scale_scale_R (v : vec3 R) (a b : R) :
  v3_scale (v3_scale v a) b = v3_scale v (a * b).
Proof. R_vec. vec_eq; ring. Qed.

Lemma v3_scale_add_R (l r : vec3 R) (s : R) :
  v3_scale (v3_add l r) s = v3_add (v3_scale l s) (v3_scale r s).
Proof. R_vec. vec_eq; ring. Qed.

Lemma v3_sub_self_R (v : vec3 R) : v3_sub v v = V3 0 0 0.
Proof. R_vec. vec_eq; ring. Qed.

Lemma v3_add_zero_R (v : vec3 R) : v3_add v (V3 0 0 0) = v.
Proof. R_vec. vec_eq; ring. Qed.

Lemma v3_cross_self_R (v : vec3 R) : v3_cross v v = V3 0 0 0.
Proof. R_vec. vec_eq; ring. Qed.

Lemma m3x3_transp_mul_R (a b : mat3 R) :
  m3x3_transp (m3x3_mul a b) = m3x3_mul (m3x3_transp b) (m3x3_transp a).
Proof. R_vec. mat_eq; ring. Qed.

Lemma m3x3_inv_cross_R (m : mat3 R) :
  m3x3_det m <> 0 ->
  m3x3_inv m =
  m3x3_transp
    (M3 (v3_scale (v3_cross (my m) (mz m)) (1 / m3x3_det m))
        (v3_scale (v3_cross (mz m) (mx m)) (1 / m3x3_det m))
        (v3_scale (v3_cross (mx m) (my m)) (1 / m3x3_det m))).
Proof.
  intros Hdet. unfold m3x3_inv. rewrite eqn_R_false by exact Hdet.
  remember (1 / m3x3_det m) as invdet eqn:Hinv.
  change (lit1 / m3x3_det m)%num with (1 / m3x3_det m). rewrite <- Hinv.
  clear Hinv Hdet. R_vec. cbn [x y z mx my mz]. mat_eq; ring.
Qed.

Lemma transform_euler_steps_R (v : vec3 R) (h p r : R) :
  v3_m3x3_mul v (m3x3_euler h p r)
  = v3_m3x3_mul
      (v3_m3x3_mul (v3_m3x3_mul v (m3x3_euler h 0 0)) (m3x3_euler 0 p 0))
      (m3x3_euler 0 0 r).
Proof.
  rewrite (m3x3_euler_decompose_R h p r), !transform_compose_R, m3x3_mul_assoc_R.
  reflexivity.
Qed.

End ExactMore.
(** ** Binary64 arithmetic, continued

    Addition and multiplication are commutative, [a - b] is [a + (-b)],
    multiplying by [1.0] returns the number and by [-1.0] its opposite,
    for every binary64 number; not-a-number spreads through every
    operation. *)

Section Binary64More.

Local Open Scope Z_scope.

Lemma SF64add_comm (x y : spec_float) : SF64add x y = SF64add y x.
Proof.
  unfold SF64add.
  destruct x as [[|] | [|] | | sx mx ex], y as [[|] | [|] | | sy my ey];
    cbn [SFadd]; try reflexivity.
  replace (IntDef.Z.min ey ex) with (IntDef.Z.min ex ey) by apply Z.min_comm.
  f_equal. apply Z.add_comm.
Qed.

Lemma SF64sub_add_opp (x y : spec_float) : SF64sub x y = SF64add x (SFopp y).
Proof.
  unfold SF64sub, SF64add.
  destruct x as [[|] | [|] | | sx mx ex], y as [[|] | [|] | | sy my ey];
    cbn [SFsub SFadd SFopp negb]; try reflexivity.
  f_equal. destruct sy; cbn [cond_Zopp negb]; lia.
Qed.

Lemma SF64mul_one_r_valid (x : spec_float) :
  valid_binary x = true -> SF64mul x sf_one = x.
Proof.
  destruct x as [s | s | | s m e]; intros Hv.
  - cbn. rewrite xorb_false_r. reflexivity.
  - cbn. rewrite xorb_false_r. reflexivity.
  - reflexivity.
  - apply SF64mul_one_r; [exact Hv | reflexivity].
Qed.

Lemma SF64sub_diag (x : spec_float) :
  sf_is_finite x = true -> SF64sub x x = S754_zero false.
Proof.
  destruct x as [[|] | s | | s m e]; intros Hf; try discriminate Hf;
    try reflexivity.
  unfold SF64sub. cbn [SFsub]. rewrite Z.sub_diag. reflexivity.
Qed.

Lemma float_add_comm (a b : float) : (a + b)%float = (b + a)%float.
Proof.
  apply Prim2SF_inj. rewrite !add_spec. apply SF64add_comm.
Qed.

Lemma float_mul_comm (a b : float) : (a * b)%float = (b * a)%float.
Proof.
  apply Prim2SF_inj. rewrite !mul_spec. apply SF64mul_comm.
Qed.

Lemma float_mul_one_r (a : float) : (a * 1)%float = a.
Proof.
  apply Prim2SF_inj. rewrite mul_spec, Prim2SF_one.
  apply SF64mul_one_r_valid, Prim2SF_valid.
Qed.

Lemma float_mul_minus_one_r (a : float) : (a * (-1))%float = (- a)%float.
Proof.
  apply Prim2SF_inj. rewrite mul_spec, Prim2SF_minus_one, opp_spec.
  apply SF64mul_minus_one_r, Prim2SF_valid.
Qed.

Lemma float_sub_add_opp (a b : float) : (a - b)%float = (a + - b)%float.
Proof.
  apply Prim2SF_inj. rewrite sub_spec, add_spec, opp_spec.
  apply SF64sub_add_opp.
Qed.

Lemma float_sub_diag (a : float) : isFinite a = true -> (a - a)%float = 0%float.
Proof.
  intros Hf. apply Prim2SF_inj. rewrite sub_spec, Prim2SF_zero.
  apply SF64sub_diag. exact Hf.
Qed.

End Binary64More.

Section VectorLawsBinary64.

Ltac float_unfold :=
  cbv [m3x3_mul m3x3_inv m3x3_det m3x3_identity m3x3_transp m3x3
       v3_add v3_sub v3_cross v3_scale v3_dot v3 x y z mx my mz
       add sub mul div neg lit0 lit1 F_Arith].

Lemma v3_add_comm_binary64 (l r : vec3 float) : v3_add l r = v3_add r l.
Proof.
  destruct l as [lx ly lz], r as [rx ry rz]. float_unfold.
  f_equal; apply float_add_comm.
Qed.

Lemma v3_dot_comm_binary64 (l r : vec3 float) : v3_dot l r = v3_dot r l.
Proof.
  destruct l as [lx ly lz], r as [rx ry rz]. float_unfold.
  rewrite (float_mul_comm lx rx), (float_mul_comm ly ry), (float_mul_comm lz rz).
  reflexivity.
Qed.

Lemma v3_sub_add_scale_binary64 (l r : vec3 float) :
  v3_sub l r = v3_add l (v3_scale r (-1)%float).
Proof.
  destruct l as [lx ly lz], r as [rx ry rz]. float_unfold.
  rewrite !float_mul_minus_one_r, <- !float_sub_add_opp. reflexivity.
Qed.

Lemma v3_scale_one_binary64 (v : vec3 float) : v3_scale v 1%float = v.
Proof.
  destruct v as [a b c]. float_unfold.
  rewrite !float_mul_one_r. reflexivity.
Qed.

Lemma m3x3_transp_mul_binary64 (a b : mat3 float) :
  m3x3_transp (m3x3_mul a b) = m3x3_mul (m3x3_transp b) (m3x3_transp a).
Proof.
  destruct a as [[a1 a2 a3] [a4 a5 a6] [a7 a8 a9]].
  destruct b as [[b1 b2 b3] [b4 b5 b6] [b7 b8 b9]].
  float_unfold.
  repeat match goal with
  | |- context [(?p * ?q)%float] =>
      match p with
      | a1 => idtac | a2 => idtac | a3 => idtac | a4 => idtac | a5 => idtac
      | a6 => idtac | a7 => idtac | a8 => idtac | a9 => idtac
      end;
      rewrite (float_mul_comm p q)
  end.
  reflexivity.
Qed.

End VectorLawsBinary64.

Section NaN.
Local Open Scope float_scope.

Lemma isNaN_spec (n : float) : isNaN n = sf_is_nan (Prim2SF n).
Proof.
  unfold isNaN. rewrite FloatAxioms.eqb_spec.
  destruct (Prim2SF n) as [s | [|] | | s m e] eqn:E; try reflexivity.
  rewrite SFeqb_refl by reflexivity. reflexivity.
Qed.

Lemma isNaN_eq (n : float) : isNaN n = true -> n = nan.
Proof.
  rewrite isNaN_spec. intros H. apply Prim2SF_inj.
  destruct (Prim2SF n); try discriminate H. vm_compute. reflexivity.
Qed.

Lemma isNaN_mul_l (a b : float) : isNaN a = true -> isNaN (a * b) = true.
Proof.
  rewrite !isNaN_spec, mul_spec. destruct (Prim2SF a); try discriminate. reflexivity.
Qed.

Lemma isNaN_mul_r (a b : float) : isNaN b = true -> isNaN (a * b) = true.
Proof.
  rewrite !isNaN_spec, mul_spec.
  destruct (Prim2SF b); try discriminate. destruct (Prim2SF a); reflexivity.
Qed.

Lemma isNaN_add_l (a b : float) : isNaN a = true -> isNaN (a + b) = true.
Proof.
  rewrite !isNaN_spec, add_spec. destruct (Prim2SF a); try discriminate. reflexivity.
Qed.

Lemma isNaN_add_r (a b : float) : isNaN b = true -> isNaN (a + b) = true.
Proof.
  rewrite !isNaN_spec, add_spec.
  destruct (Prim2SF b); try discriminate. destruct (Prim2SF a); reflexivity.
Qed.

Lemma isNaN_sub_l (a b : float) : isNaN a = true -> isNaN (a - b) = true.
Proof.
  rewrite !isNaN_spec, sub_spec. destruct (Prim2SF a); try discriminate. reflexivity.
Qed.

Lemma isNaN_sub_r (a b : float) : isNaN b = true -> isNaN (a - b) = true.
Proof.
  rewrite !isNaN_spec, sub_spec.
  destruct (Prim2SF b); try discriminate. destruct (Prim2SF a); reflexivity.
Qed.

Lemma isNaN_div_r (a b : float) : isNaN b = true -> isNaN (a / b) = true.
Proof.
  rewrite !isNaN_spec, div_spec.
  destruct (Prim2SF b); try discriminate. destruct (Prim2SF a); reflexivity.
Qed.

Lemma isNaN_eqb_false (a b : float) : isNaN a = true -> (a =? b) = false.
Proof.
  rewrite isNaN_spec, FloatAxioms.eqb_spec.
  destruct (Prim2SF a); try discriminate. reflexivity.
Qed.

Ltac nan_prop :=
  solve [ assumption
        | apply isNaN_mul_l; nan_prop | apply isNaN_mul_r; nan_prop
        | apply isNaN_add_l; nan_prop | apply isNaN_add_r; nan_prop
        | apply isNaN_sub_l; nan_prop | apply isNaN_sub_r; nan_prop ].

Lemma m3x3_det_nan (m : mat3 float) :
  m3x3_has_nan m = true -> isNaN (m3x3_det m) = true.
Proof.
  destruct m as [[a b c] [d e f] [g h i]].
  cbv [m3x3_has_nan v3_has_nan m3x3_det x y z mx my mz add sub mul F_Arith].
  intros H.
  repeat match goal with
  | H : (_ || _)%bool = true |- _ => apply orb_prop in H; destruct H as [H | H]
  end; nan_prop.
Qed.

Lemma m3x3_inv_nan (m : mat3 float) :
  m3x3_has_nan m = true ->
  m3x3_inv m = m3x3 nan nan nan nan nan nan nan nan nan.
Proof.
  intros H. apply m3x3_det_nan in H.
  unfold m3x3_inv.
  change (m3x3_det m == lit0)%num with (m3x3_det m =? 0).
  rewrite (isNaN_eqb_false _ _ H).
  assert (Hinv : isNaN (1 / m3x3_det m) = true) by (apply isNaN_div_r; exact H).
  change (lit1 / m3x3_det m)%num with (1 / m3x3_det m).
  apply (f_equal3 (@M3 float)); apply (f_equal3 (@V3 float));
    apply isNaN_eq, isNaN_mul_r; exact Hinv.
Qed.

End NaN.

Section EdgeBinary64.
Local Open Scope Z_scope.

Ltac float_unfold :=
  cbv [m3x3_mul m3x3_inv m3x3_det m3x3_identity m3x3_transp m3x3
       v3_add v3_sub v3_cross v3_scale v3_dot v3_len v3 x y z mx my mz
       add sub mul div neg sqrt eqn lit0 lit1 F_Arith].

Lemma m3x3_inv_cross_binary64 (m : mat3 float) :
  (m3x3_det m == lit0)%num = false ->
  m3x3_inv m =
  m3x3_transp
    (M3 (v3_scale (v3_cross (my m) (mz m)) (lit1 / m3x3_det m)%num)
        (v3_scale (v3_cross (mz m) (mx m)) (lit1 / m3x3_det m)%num)
        (v3_scale (v3_cross (mx m) (my m)) (lit1 / m3x3_det m)%num)).
Proof.
  intros Hdet. unfold m3x3_inv. rewrite Hdet.
  destruct m as [[a b c] [d e f] [g h i]].
  float_unfold.
  rewrite (float_mul_comm h f), (float_mul_comm c h), (float_mul_comm b i),
          (float_mul_comm a i), (float_mul_comm c g), (float_mul_comm d c),
          (float_mul_comm g e), (float_mul_comm a h), (float_mul_comm d b).
  reflexivity.
Qed.

Lemma float_sub_self (a : float) : isNaN (a - a)%float = false -> (a - a)%float = 0%float.
Proof.
  rewrite isNaN_spec, sub_spec. intros Hn.
  apply Prim2SF_inj. rewrite sub_spec, Prim2SF_zero.
  destruct (Prim2SF a) as [[|] | [|] | | s m e]; try discriminate Hn; try reflexivity.
  apply SF64sub_diag. reflexivity.
Qed.

Lemma v3_cross_self_binary64 (v : vec3 float) :
  v3_eqn (v3_cross v v) (v3_cross v v) = true ->
  v3_cross v v = (V3 0 0 0)%float.
Proof.
  destruct v as [a b c].
  cbv [v3_eqn v3_cross v3 x y z eqn sub mul F_Arith].
  rewrite (float_mul_comm c b), (float_mul_comm a c), (float_mul_comm b a).
  intros H.
  apply andb_prop in H. destruct H as [H Hz].
  apply andb_prop in H. destruct H as [Hx Hy].
  rewrite !float_sub_self; [reflexivity | unfold isNaN; rewrite ?Hx, ?Hy, ?Hz; reflexivity ..].
Qed.

Lemma v3_sub_self_binary64 (v : vec3 float) :
  v3_finite v = true -> v3_sub v v = (V3 0 0 0)%float.
Proof.
  destruct v as [a b c]. cbv [v3_finite v3_sub v3 x y z sub F_Arith].
  intros H.
  apply andb_prop in H. destruct H as [H Hz].
  apply andb_prop in H. destruct H as [Hx Hy].
  rewrite !float_sub_diag by assumption. reflexivity.
Qed.

Lemma float_add_zero_r (a : float) :
  isNaN a = false -> (a + 0 =? a)%float = true.
Proof.
  rewrite isNaN_spec. intros Hn.
  rewrite FloatAxioms.eqb_spec, add_spec, Prim2SF_zero.
  destruct (Prim2SF a) as [[|] | [|] | | s m e]; try discriminate Hn; try reflexivity.
  cbn [SF64add SFadd]. apply SFeqb_refl. reflexivity.
Qed.

Lemma float_div_one_zero (d : float) :
  (d =? 0)%float = true ->
  exists s, Prim2SF (1 / d)%float = S754_infinity s.
Proof.
  rewrite FloatAxioms.eqb_spec, Prim2SF_zero. intros Hz.
  rewrite div_spec, Prim2SF_one.
  destruct (Prim2SF d) as [s | [|] | | [|] m e]; try discriminate Hz.
  eexists. reflexivity.
Qed.

Lemma float_mul_infinity_not_finite (a i : float) (s : bool) :
  Prim2SF i = S754_infinity s -> isFinite (a * i)%float = false.
Proof.
  intros Hi. unfold isFinite. rewrite mul_spec, Hi.
  destruct (Prim2SF a) as [sa | sa | | sa m e]; reflexivity.
Qed.

Lemma v3_scale_inverse_zero_length_binary64 (v : vec3 float) :
  (v3_len v == lit0)%num = true ->
  v3_finite (v3_scale v (lit1 / v3_len v)%num) = false /\
  isFinite (x (v3_scale v (lit1 / v3_len v)%num)) = false /\
  isFinite (y (v3_scale v (lit1 / v3_len v)%num)) = false /\
  isFinite (z (v3_scale v (lit1 / v3_len v)%num)) = false.
Proof.
  intros Hlen. unfold v3_finite, v3_scale. cbn [x y z v3].
  destruct (float_div_one_zero (v3_len v) Hlen) as [s Hs].
  change (lit1 / v3_len v)%num with (1 / v3_len v)%float.
  change (@mul float F_Arith) with PrimFloat.mul.
  rewrite !(float_mul_infinity_not_finite _ _ s Hs).
  repeat split.
Qed.

End EdgeBinary64.

(** ** Untyped values, continued

    On every value of [Js] a function either throws a [TypeError] or
    returns, and the condition is read off the argument: which values are
    [undefined] or [null] where a property is read, and which are objects
    that no method converts where a number or a string is wanted. *)

Lemma string_app_assoc (a b c : string) : ((a ++ b) ++ c = a ++ (b ++ c))%string.
Proof. induction a as [| ch a IH]; cbn; [reflexivity | rewrite IH; reflexivity]. Qed.

Lemma string_app_nil_r (a : string) : (a ++ EmptyString = a)%string.
Proof. induction a as [| ch a IH]; cbn; [reflexivity | rewrite IH; reflexivity]. Qed.

Lemma lacks_app (c : Ascii.ascii) (a b : string) :
  lacks c (a ++ b) = lacks c a && lacks c b.
Proof.
  induction a as [| ch a IH]; cbn; [reflexivity |].
  rewrite IH, andb_assoc. reflexivity.
Qed.

Section Untyped.

Variable eng : Js.engine.

Lemma js_get_spec (v : Js.value) (p : string) :
  Js.get v p =
  if js_nullish v then Js.Throw Js.TypeError else Js.Normal (js_prop v p).
Proof. destruct v; reflexivity. Qed.

Lemma js_ToPrimitive_spec (h : Js.hint) (v : Js.value) :
  Js.ToPrimitive h v =
  if js_unconvertible v then Js.Throw Js.TypeError else Js.Normal (js_primitive v).
Proof.
  destruct v as [| | b | n | s | props]; try reflexivity.
  cbn [Js.ToPrimitive js_unconvertible js_primitive].
  destruct h; cbn [Js.method_names Js.OrdinaryToPrimitive]; unfold Js.method_result;
    cbn [String.eqb Ascii.eqb Bool.eqb];
    destruct (Js.has_own "toString" props), (Js.has_own "valueOf" props); reflexivity.
Qed.

(** What the conversion returns is a primitive. *)
Lemma js_ToPrimitive_primitive (h : Js.hint) (v p : Js.value) :
  Js.ToPrimitive h v = Js.Normal p -> Js.is_object p = false.
Proof.
  rewrite js_ToPrimitive_spec.
  destruct (js_unconvertible v); [discriminate |].
  intros H. injection H as <-. destruct v; reflexivity.
Qed.

Lemma js_primitive_convertible (v : Js.value) :
  js_unconvertible (js_primitive v) = false.
Proof. destruct v; reflexivity. Qed.

Lemma js_primitive_idem (v : Js.value) : js_primitive (js_primitive v) = js_primitive v.
Proof. destruct v; reflexivity. Qed.

Lemma js_ToNumber_spec (v : Js.value) :
  Js.ToNumber eng v =
  if js_unconvertible v then Js.Throw Js.TypeError else Js.Normal (js_number eng v).
Proof.
  unfold Js.ToNumber. rewrite js_ToPrimitive_spec.
  destruct (js_unconvertible v); reflexivity.
Qed.

Lemma js_ToString_spec (v : Js.value) :
  Js.ToString eng v =
  if js_unconvertible v then Js.Throw Js.TypeError else Js.Normal (js_string eng v).
Proof.
  unfold Js.ToString. rewrite js_ToPrimitive_spec.
  destruct (js_unconvertible v); reflexivity.
Qed.

Lemma js_Number_spec (v : Js.value) :
  Js.Number eng v =
  if js_unconvertible v then Js.Throw Js.TypeError
  else Js.Normal (Js.VNumber (js_number eng v)).
Proof.
  unfold Js.Number. rewrite js_ToNumber_spec.
  destruct (js_unconvertible v); reflexivity.
Qed.

Lemma js_Math_sqrt_spec (v : Js.value) :
  Js.Math_sqrt eng v =
  if js_unconvertible v then Js.Throw Js.TypeError
  else Js.Normal (Js.VNumber (PrimFloat.sqrt (js_number eng v))).
Proof.
  unfold Js.Math_sqrt. rewrite js_ToNumber_spec.
  destruct (js_unconvertible v); reflexivity.
Qed.

Ltac arith_spec f :=
  intros; unfold f; rewrite !js_ToNumber_spec;
  repeat match goal with |- context [js_unconvertible ?v] => destruct (js_unconvertible v) end;
  reflexivity.

Lemma js_sub_spec (l r : Js.value) :
  Js.js_sub eng l r =
  if js_unconvertible l then Js.Throw Js.TypeError
  else if js_unconvertible r then Js.Throw Js.TypeError
  else Js.Normal (Js.VNumber (js_number eng l - js_number eng r)%float).
Proof. arith_spec Js.js_sub. Qed.

Lemma js_mul_spec (l r : Js.value) :
  Js.js_mul eng l r =
  if js_unconvertible l then Js.Throw Js.TypeError
  else if js_unconvertible r then Js.Throw Js.TypeError
  else Js.Normal (Js.VNumber (js_number eng l * js_number eng r)%float).
Proof. arith_spec Js.js_mul. Qed.

Lemma js_div_spec (l r : Js.value) :
  Js.js_div eng l r =
  if js_unconvertible l then Js.Throw Js.TypeError
  else if js_unconvertible r then Js.Throw Js.TypeError
  else Js.Normal (Js.VNumber (js_number eng l / js_number eng r)%float).
Proof. arith_spec Js.js_div. Qed.

Lemma js_add_spec (l r : Js.value) :
  Js.js_add eng l r =
  if js_unconvertible l then Js.Throw Js.TypeError
  else if js_unconvertible r then Js.Throw Js.TypeError
  else Js.Normal (js_sum eng l r).
Proof.
  unfold Js.js_add, js_sum. rewrite !js_ToPrimitive_spec.
  destruct (js_unconvertible l); [reflexivity |].
  destruct (js_unconvertible r); [reflexivity |].
  cbn [Js.bind].
  rewrite !js_ToString_spec, !js_ToNumber_spec, !js_primitive_convertible.
  unfold js_string, js_number. rewrite !js_primitive_idem.
  destruct (Js.is_string (js_primitive l) || Js.is_string (js_primitive r)); reflexivity.
Qed.

Lemma js_sum_convertible (l r : Js.value) : js_unconvertible (js_sum eng l r) = false.
Proof.
  unfold js_sum.
  destruct (Js.is_string (js_primitive l) || Js.is_string (js_primitive r)); reflexivity.
Qed.

Lemma js_v3_spec (a b c : Js.value) :
  Js.v3 eng a b c =
  if js_unconvertible a then Js.Throw Js.TypeError
  else if js_unconvertible b then Js.Throw Js.TypeError
  else if js_unconvertible c then Js.Throw Js.TypeError
  else Js.Normal (Js.of_vec3 (V3 (js_number eng a) (js_number eng b) (js_number eng c))).
Proof.
  unfold Js.v3. rewrite !js_Number_spec.
  destruct (js_unconvertible a); [reflexivity |].
  destruct (js_unconvertible b); [reflexivity |].
  destruct (js_unconvertible c); reflexivity.
Qed.

Lemma js_v3_any (a b c : Js.value) :
  Js.v3 eng a b c =
  if js_unconvertible a || js_unconvertible b || js_unconvertible c
  then Js.Throw Js.TypeError
  else Js.Normal (Js.of_vec3 (v3 (js_number eng a) (js_number eng b) (js_number eng c))).
Proof.
  rewrite js_v3_spec.
  destruct (js_unconvertible a), (js_unconvertible b), (js_unconvertible c);
    reflexivity.
Qed.

Ltac js_unfold :=
  cbv [Js.v3_add Js.v3_sub Js.v3_scale Js.v3_len Js.v3_dot Js.v3_cross
       Js.m3x3 Js.m3x3_identity Js.m3x3_transp Js.m3x3_inv Js.m3x3_mul Js.v3_m3x3_mul
       Js.call2 Js.call3 Js.call9 Js.binop Js.unop Js.member Js.ret Js.lit
       js_no_vector js_no_matrix].

Ltac js_known :=
  match goal with
  | H : ?b = _ |- context [?b] => rewrite H
  end.

Ltac js_atom :=
  match goal with
  | |- context [if ?b then _ else _] =>
      lazymatch b with
      | js_nullish _ => idtac
      | js_unconvertible _ => idtac
      | PrimFloat.eqb _ _ => idtac
      end;
      destruct b eqn:?
  end.

Ltac js_simpl :=
  cbn [Js.bind orb js_nullish js_unconvertible js_prop Js.lookup Js.of_vec3 Js.of_mat3
       String.eqb Ascii.eqb Bool.eqb x y z mx my mz js_number js_primitive Js.primitive_to_number].

Lemma js_sum_numbers (a b : float) :
  js_sum eng (Js.VNumber a) (Js.VNumber b) = Js.VNumber (a + b)%float.
Proof. reflexivity. Qed.

Lemma js_eq_number_number (d n : float) :
  Js.js_eq_number eng (Js.VNumber d) n = Js.Normal (PrimFloat.eqb d n).
Proof. reflexivity. Qed.

Ltac js_rewrite :=
  first [ rewrite js_sum_numbers | rewrite js_eq_number_number | rewrite js_get_spec | rewrite js_v3_spec | rewrite js_add_spec
        | rewrite js_sub_spec | rewrite js_mul_spec | rewrite js_div_spec
        | rewrite js_Math_sqrt_spec | rewrite js_Number_spec
        | rewrite js_sum_convertible ].

Ltac js_eval :=
  js_unfold;
  repeat first [ progress js_simpl | js_known | js_rewrite | js_atom ].

Ltac js_throw_leaf :=
  match goal with
  | |- if ?c then _ else _ =>
      replace c with true by (rewrite ?orb_true_r; reflexivity); reflexivity
  end.

Ltac js_leaf :=
  first
    [ reflexivity
    | match goal with
      | |- _ = (if ?c then _ else _) =>
          replace c with true by (rewrite ?orb_true_r; reflexivity); reflexivity
      end ].

Ltac js_cases := js_eval; js_leaf.

Lemma js_v3_add_any (vl vr : Js.value) :
  Js.v3_add eng vl vr =
  if js_no_vector vl || js_no_vector vr then Js.Throw Js.TypeError
  else Js.Normal (Js.of_vec3
         (V3 (js_number eng (js_sum eng (js_prop vl "x") (js_prop vr "x")))
             (js_number eng (js_sum eng (js_prop vl "y") (js_prop vr "y")))
             (js_number eng (js_sum eng (js_prop vl "z") (js_prop vr "z"))))).
Proof. js_cases. Qed.

Lemma js_v3_sub_any (vl vr : Js.value) :
  Js.v3_sub eng vl vr =
  if js_no_vector vl || js_no_vector vr then Js.Throw Js.TypeError
  else Js.Normal (Js.of_vec3 (v3_sub (js_vector eng vl) (js_vector eng vr))).
Proof. js_cases. Qed.

Lemma js_v3_cross_any (vl vr : Js.value) :
  Js.v3_cross eng vl vr =
  if js_no_vector vl || js_no_vector vr then Js.Throw Js.TypeError
  else Js.Normal (Js.of_vec3 (v3_cross' (js_vector eng vl) (js_vector eng vr))).
Proof. js_cases. Qed.

Lemma js_v3_dot_any (vl vr : Js.value) :
  Js.v3_dot eng vl vr =
  if js_no_vector vl || js_no_vector vr then Js.Throw Js.TypeError
  else Js.Normal (Js.VNumber (v3_dot (js_vector eng vl) (js_vector eng vr))).
Proof. js_cases. Qed.

Lemma js_v3_scale_any (vl nr : Js.value) :
  Js.v3_scale eng vl nr =
  if js_no_vector vl || js_unconvertible nr then Js.Throw Js.TypeError
  else Js.Normal (Js.of_vec3 (v3_scale (js_vector eng vl) (js_number eng nr))).
Proof. js_cases. Qed.

Lemma js_v3_len_any (v : Js.value) :
  Js.v3_len eng v =
  if js_no_vector v then Js.Throw Js.TypeError
  else Js.Normal (Js.VNumber (v3_len (js_vector eng v))).
Proof. js_cases. Qed.

Lemma js_m3x3_transp_any (m : Js.value) :
  Js.m3x3_transp eng m =
  if js_no_matrix m then Js.Throw Js.TypeError
  else Js.Normal (Js.of_mat3 (m3x3_transp (js_matrix eng m))).
Proof. js_cases. Qed.

Lemma js_neg_spec (v : Js.value) :
  Js.js_neg eng v =
  if js_unconvertible v then Js.Throw Js.TypeError
  else Js.Normal (Js.VNumber (- js_number eng v)%float).
Proof. arith_spec Js.js_neg. Qed.

Lemma js_Math_sin_spec (v : Js.value) :
  Js.Math_sin eng v =
  if js_unconvertible v then Js.Throw Js.TypeError
  else Js.Normal (Js.VNumber (Js.MathSin eng (js_number eng v))).
Proof. arith_spec Js.Math_sin. Qed.

Lemma js_Math_cos_spec (v : Js.value) :
  Js.Math_cos eng v =
  if js_unconvertible v then Js.Throw Js.TypeError
  else Js.Normal (Js.VNumber (Js.MathCos eng (js_number eng v))).
Proof. arith_spec Js.Math_cos. Qed.

Lemma js_m3x3_euler_any (nhead npitch nroll : Js.value) :
  Js.m3x3_euler eng nhead npitch nroll =
  if js_unconvertible nhead || js_unconvertible npitch || js_unconvertible nroll
  then Js.Throw Js.TypeError
  else Js.Normal (Js.of_mat3
         (m3x3_euler (T := F_Trig (Js.MathSin eng) (Js.MathCos eng))
            (js_number eng nhead) (js_number eng npitch) (js_number eng nroll))).
Proof.
  unfold Js.m3x3_euler.
  rewrite !js_Math_sin_spec, !js_Math_cos_spec.
  destruct (js_unconvertible nhead); [reflexivity |].
  destruct (js_unconvertible npitch); [reflexivity |].
  destruct (js_unconvertible nroll); reflexivity.
Qed.

Lemma js_m3x3_spec (a b c d e f g h i : Js.value) :
  Js.m3x3 eng a b c d e f g h i =
  if js_unconvertible a || js_unconvertible b || js_unconvertible c ||
     js_unconvertible d || js_unconvertible e || js_unconvertible f ||
     js_unconvertible g || js_unconvertible h || js_unconvertible i
  then Js.Throw Js.TypeError
  else Js.Normal (Js.of_mat3
         (m3x3 (js_number eng a) (js_number eng b) (js_number eng c)
               (js_number eng d) (js_number eng e) (js_number eng f)
               (js_number eng g) (js_number eng h) (js_number eng i))).
Proof. js_eval; first [reflexivity | rewrite ?orb_true_r; reflexivity]. Qed.

Lemma js_no_vector_of_vec3 (v : vec3 float) : js_no_vector (Js.of_vec3 v) = false.
Proof. reflexivity. Qed.

Lemma js_vector_of_vec3 (v : vec3 float) : js_vector eng (Js.of_vec3 v) = v.
Proof. destruct v; reflexivity. Qed.

Ltac js_split_atoms H :=
  unfold js_no_matrix, js_no_vector in H;
  repeat match goal with
  | H' : _ || _ = false |- _ => apply orb_false_elim in H'; destruct H' as [? ?]
  end.

(** Evaluation of an expression whose conversions are all known to
    succeed. *)
Lemma js_bind_normal {T U : Type} (c : Js.completion T) (k : T -> Js.completion U)
  (v : T) (r : U) :
  c = Js.Normal v -> k v = Js.Normal r -> Js.bind c k = Js.Normal r.
Proof. intros -> H. exact H. Qed.

Lemma js_get_normal (v : Js.value) (p : string) :
  js_nullish v = false -> Js.get v p = Js.Normal (js_prop v p).
Proof. intros H. rewrite js_get_spec, H. reflexivity. Qed.

Lemma js_sub_normal (l r : Js.value) :
  js_unconvertible l = false -> js_unconvertible r = false ->
  Js.js_sub eng l r = Js.Normal (Js.VNumber (js_number eng l - js_number eng r)%float).
Proof. intros Hl Hr. rewrite js_sub_spec, Hl, Hr. reflexivity. Qed.

Lemma js_mul_normal (l r : Js.value) :
  js_unconvertible l = false -> js_unconvertible r = false ->
  Js.js_mul eng l r = Js.Normal (Js.VNumber (js_number eng l * js_number eng r)%float).
Proof. intros Hl Hr. rewrite js_mul_spec, Hl, Hr. reflexivity. Qed.

Lemma js_div_normal (l r : Js.value) :
  js_unconvertible l = false -> js_unconvertible r = false ->
  Js.js_div eng l r = Js.Normal (Js.VNumber (js_number eng l / js_number eng r)%float).
Proof. intros Hl Hr. rewrite js_div_spec, Hl, Hr. reflexivity. Qed.

Lemma js_v3_normal (a b c : Js.value) :
  js_unconvertible a = false -> js_unconvertible b = false ->
  js_unconvertible c = false ->
  Js.v3 eng a b c
  = Js.Normal (Js.of_vec3 (V3 (js_number eng a) (js_number eng b) (js_number eng c))).
Proof. intros Ha Hb Hc. rewrite js_v3_spec, Ha, Hb, Hc. reflexivity. Qed.

Ltac js_side := first [assumption | reflexivity].

Ltac js_run :=
  lazymatch goal with
  | |- Js.bind _ _ = Js.Normal _ =>
      eapply js_bind_normal; [js_run | cbv beta; js_run]
  | |- Js.Normal _ = Js.Normal _ => reflexivity
  | |- Js.get _ _ = Js.Normal _ => apply js_get_normal; js_side
  | |- Js.js_sub _ _ _ = Js.Normal _ => apply js_sub_normal; js_side
  | |- Js.js_mul _ _ _ = Js.Normal _ => apply js_mul_normal; js_side
  | |- Js.js_div _ _ _ = Js.Normal _ => apply js_div_normal; js_side
  | |- Js.v3 _ _ _ _ = Js.Normal _ => apply js_v3_normal; js_side
  end.

Lemma js_m3x3_inv_any (m : Js.value) :
  Js.m3x3_inv eng m =
  if js_no_matrix m then Js.Throw Js.TypeError
  else Js.Normal (Js.of_mat3 (m3x3_inv (js_matrix eng m))).
Proof.
  unfold Js.m3x3_inv.
  match goal with
  | |- Js.bind ?d ?k = _ =>
      assert (Hd : d = if js_no_matrix m then Js.Throw Js.TypeError
                       else Js.Normal (Js.VNumber (m3x3_det (js_matrix eng m))))
        by js_cases;
      rewrite Hd; clear Hd
  end.
  destruct (js_no_matrix m) eqn:Hm; [reflexivity |].
  cbn [Js.bind]. rewrite js_eq_number_number. cbn [Js.bind].
  unfold m3x3_inv. cbn [eqn F_Arith lit0].
  destruct (PrimFloat.eqb (m3x3_det (js_matrix eng m)) 0).
  - reflexivity.
  - js_split_atoms Hm.
    cbv [Js.m3x3 Js.call9 Js.binop Js.member Js.ret Js.lit].
    js_run.
Qed.

Lemma js_if_orb {T : Type} (a b : bool) (t e : T) :
  (if a || b then t else e) = if a then t else if b then t else e.
Proof. destruct a; reflexivity. Qed.

Ltac js_calls :=
  cbv [Js.m3x3_mul Js.v3_m3x3_mul Js.m3x3 Js.call2 Js.call3 Js.call9 Js.member Js.ret];
  repeat first
    [ progress js_simpl
    | js_known
    | rewrite js_no_vector_of_vec3
    | rewrite js_vector_of_vec3
    | rewrite orb_false_r
    | rewrite js_if_orb
    | rewrite js_m3x3_transp_any
    | rewrite js_v3_dot_any
    | rewrite js_get_spec
    | rewrite js_v3_spec
    | match goal with
      | |- context [if ?b then _ else _] =>
          lazymatch b with
          | js_nullish _ => idtac
          | js_no_vector _ => idtac
          | js_no_matrix _ => idtac
          end;
          destruct b eqn:?
      end ];
  js_leaf.

Lemma js_v3_m3x3_mul_any (vl mr : Js.value) :
  Js.v3_m3x3_mul eng vl mr =
  if js_no_vector vl || js_no_matrix mr then Js.Throw Js.TypeError
  else Js.Normal (Js.of_vec3 (v3_m3x3_mul (js_vector eng vl) (js_matrix eng mr))).
Proof. unfold js_no_matrix. js_calls. Qed.

Lemma js_m3x3_mul_any (ml mr : Js.value) :
  Js.m3x3_mul eng ml mr =
  if js_no_matrix ml || js_no_matrix mr then Js.Throw Js.TypeError
  else Js.Normal (Js.of_mat3 (m3x3_mul (js_matrix eng ml) (js_matrix eng mr))).
Proof. unfold js_no_matrix at 1. js_calls. Qed.

Lemma js_v3_add_strings (sx sy sz tx ty tz : string) :
  Js.v3_add eng (js_string_vector sx sy sz) (js_string_vector tx ty tz)
  = Js.Normal (Js.of_vec3
      (V3 (Js.StringToNumber eng (sx ++ tx)) (Js.StringToNumber eng (sy ++ ty))
          (Js.StringToNumber eng (sz ++ tz)))).
Proof. reflexivity. Qed.

Lemma js_v3_sub_strings (sx sy sz tx ty tz : string) :
  Js.v3_sub eng (js_string_vector sx sy sz) (js_string_vector tx ty tz)
  = Js.Normal (Js.of_vec3
      (V3 (Js.StringToNumber eng sx - Js.StringToNumber eng tx)
          (Js.StringToNumber eng sy - Js.StringToNumber eng ty)
          (Js.StringToNumber eng sz - Js.StringToNumber eng tz))%float).
Proof. reflexivity. Qed.

End Untyped.

(** ** The text of a vector and of a matrix *)

Section Text.

Variable eng : Js.engine.
Variable txt : JsText.text_engine.

Lemma js_fixed_spec (c : Js.value) :
  JsText.fixed eng txt (Js.Normal c) =
  if js_unconvertible c then Js.Throw Js.TypeError
  else Js.Normal (Js.VString (js_numeral eng txt c)).
Proof.
  unfold JsText.fixed, JsText.parseFloat. cbn [Js.bind].
  rewrite js_ToString_spec. destruct (js_unconvertible c); reflexivity.
Qed.

Lemma js_add_strings (a b : string) :
  Js.js_add eng (Js.VString a) (Js.VString b) = Js.Normal (Js.VString (a ++ b)).
Proof. reflexivity. Qed.

Lemma js_v3_str_any (v : Js.value) :
  JsText.v3_str eng txt v =
  if js_no_vector v then Js.Throw Js.TypeError
  else Js.Normal (Js.VString (js_text eng txt v)).
Proof.
  unfold js_no_vector, js_text.
  cbv [JsText.v3_str Js.binop Js.member Js.ret].
  repeat first
    [ progress cbn [Js.bind orb]
    | match goal with H : ?b = _ |- context [?b] => rewrite H end
    | rewrite js_get_spec
    | rewrite js_fixed_spec
    | rewrite js_add_strings
    | match goal with
      | |- context [if ?b then _ else _] =>
          lazymatch b with
          | js_nullish _ => idtac
          | js_unconvertible _ => idtac
          end;
          destruct b eqn:?
      end ];
  first
    [ reflexivity
    | match goal with
      | |- _ = (if ?c then _ else _) =>
          replace c with true by (rewrite ?orb_true_r; reflexivity); reflexivity
      end
    | rewrite !string_app_assoc; reflexivity ].
Qed.

Lemma js_v3_str_ok (v : vec3 float) :
  JsText.v3_str eng txt (Js.of_vec3 v) = Js.Normal (Js.VString (v3_text eng txt v)).
Proof. rewrite js_v3_str_any. reflexivity. Qed.

Lemma js_m3x3_str_any (m : Js.value) :
  JsText.m3x3_str eng txt m =
  if js_no_matrix m then Js.Throw Js.TypeError
  else Js.Normal (Js.VString
         (js_text eng txt (js_prop m "x") ++ JsText.newline ++
          js_text eng txt (js_prop m "y") ++ JsText.newline ++
          js_text eng txt (js_prop m "z"))).
Proof.
  unfold js_no_matrix.
  cbv [JsText.m3x3_str JsText.call1 Js.binop Js.member Js.ret].
  repeat first
    [ progress cbn [Js.bind orb]
    | match goal with H : ?b = _ |- context [?b] => rewrite H end
    | rewrite js_get_spec
    | rewrite js_v3_str_any
    | rewrite js_add_strings
    | match goal with
      | |- context [if ?b then _ else _] =>
          lazymatch b with
          | js_nullish _ => idtac
          | js_no_vector _ => idtac
          end;
          destruct b eqn:?
      end ];
  first
    [ reflexivity
    | match goal with
      | |- _ = (if ?c then _ else _) =>
          replace c with true by (rewrite ?orb_true_r; reflexivity); reflexivity
      end
    | rewrite !string_app_assoc; reflexivity ].
Qed.

Lemma js_m3x3_str_ok (m : mat3 float) :
  JsText.m3x3_str eng txt (Js.of_mat3 m)
  = Js.Normal (Js.VString
      (v3_text eng txt (mx m) ++ JsText.newline ++ v3_text eng txt (my m) ++ JsText.newline ++
       v3_text eng txt (mz m))).
Proof. rewrite js_m3x3_str_any. reflexivity. Qed.

Lemma split_comma_space_step (c : Ascii.ascii) (piece text : string) :
  Ascii.eqb c "," = false ->
  split_comma_space piece (String c text)
  = split_comma_space (piece ++ String c EmptyString) text.
Proof.
  intros Hc. destruct text as [| c' text']; cbn [split_comma_space].
  - reflexivity.
  - rewrite Hc. reflexivity.
Qed.

Lemma split_comma_space_piece (a piece rest : string) :
  lacks "," a = true ->
  split_comma_space piece (a ++ ", " ++ rest)
  = (piece ++ a)%string :: split_comma_space EmptyString rest.
Proof.
  revert piece. induction a as [| c a IH]; intros piece Ha.
  - cbn. rewrite string_app_nil_r. reflexivity.
  - cbn [lacks] in Ha. apply andb_prop in Ha. destruct Ha as [Hc Ha].
    apply negb_true_iff in Hc.
    change ((String c a ++ ", " ++ rest)%string) with (String c (a ++ ", " ++ rest)).
    rewrite split_comma_space_step, IH, string_app_assoc by assumption.
    reflexivity.
Qed.

Lemma split_comma_space_last (a piece : string) :
  lacks "," a = true -> split_comma_space piece a = [(piece ++ a)%string].
Proof.
  revert piece. induction a as [| c a IH]; intros piece Ha.
  - cbn. rewrite string_app_nil_r. reflexivity.
  - cbn [lacks] in Ha. apply andb_prop in Ha. destruct Ha as [Hc Ha].
    apply negb_true_iff in Hc.
    rewrite split_comma_space_step, IH, string_app_assoc by assumption.
    reflexivity.
Qed.

Lemma split_newline_piece (a piece rest : string) :
  lacks (Ascii.ascii_of_nat 10) a = true ->
  split_newline piece (a ++ JsText.newline ++ rest)
  = (piece ++ a)%string :: split_newline EmptyString rest.
Proof.
  revert piece. induction a as [| c a IH]; intros piece Ha.
  - cbn. rewrite string_app_nil_r. reflexivity.
  - cbn [lacks] in Ha. apply andb_prop in Ha. destruct Ha as [Hc Ha].
    apply negb_true_iff in Hc.
    change ((String c a ++ JsText.newline ++ rest)%string)
      with (String c (a ++ JsText.newline ++ rest)).
    cbn [split_newline]. rewrite Hc, IH, string_app_assoc by assumption.
    reflexivity.
Qed.

Lemma split_newline_last (a piece : string) :
  lacks (Ascii.ascii_of_nat 10) a = true ->
  split_newline piece a = [(piece ++ a)%string].
Proof.
  revert piece. induction a as [| c a IH]; intros piece Ha.
  - cbn. rewrite string_app_nil_r. reflexivity.
  - cbn [lacks] in Ha. apply andb_prop in Ha. destruct Ha as [Hc Ha].
    apply negb_true_iff in Hc.
    cbn [split_newline]. rewrite Hc, IH, string_app_assoc by assumption.
    reflexivity.
Qed.

Lemma js_text_fields (v : Js.value) :
  (forall n, lacks "," (JsText.NumberToFixed2 txt n) = true) ->
  split_comma_space EmptyString (js_text eng txt v)
  = [js_numeral eng txt (js_prop v "x"); js_numeral eng txt (js_prop v "y");
     js_numeral eng txt (js_prop v "z")].
Proof.
  intros Hc. unfold js_text, js_numeral.
  rewrite !split_comma_space_piece, split_comma_space_last by apply Hc.
  reflexivity.
Qed.

Lemma js_text_one_line (v : Js.value) :
  (forall n, lacks (Ascii.ascii_of_nat 10) (JsText.NumberToFixed2 txt n) = true) ->
  lacks (Ascii.ascii_of_nat 10) (js_text eng txt v) = true.
Proof.
  intros Hn. unfold js_text, js_numeral.
  rewrite !lacks_app, !Hn. reflexivity.
Qed.

End Text.

(** ** Properties *)

(** X1: transposing a matrix twice returns the matrix, over any
    numbers. *)
Theorem m3x3_transp_involutive :
  forall (num : Type) (A : Arith num) (m : mat3 num),
    m3x3_transp (m3x3_transp m) = m.
Proof. intros num A [[a b c] [d e f] [g h i]]. reflexivity. Qed.

(** X2: the transpose of a product is the product of the transposes in
    the opposite order, for all binary64 matrices (entry for entry the
    same number) and in exact arithmetic. *)
Theorem m3x3_transp_mul_reverses :
  (forall a b : mat3 float,
      m3x3_transp (m3x3_mul a b) = m3x3_mul (m3x3_transp b) (m3x3_transp a)) /\
  (forall a b : mat3 R,
      m3x3_transp (m3x3_mul a b) = m3x3_mul (m3x3_transp b) (m3x3_transp a)).
Proof. split; [exact m3x3_transp_mul_binary64 | exact m3x3_transp_mul_R]. Qed.

(** X3: [v3_add] is commutative, for all binary64 vectors (not-a-number
    and infinite components included) and in exact arithmetic. *)
Theorem v3_add_commutative :
  (forall l r : vec3 float, v3_add l r = v3_add r l) /\
  (forall l r : vec3 R, v3_add l r = v3_add r l).
Proof. split; [exact v3_add_comm_binary64 | exact v3_add_comm_R]. Qed.

(** X4: [v3_dot] is symmetric, for all binary64 vectors and in exact
    arithmetic. *)
Theorem v3_dot_symmetric :
  (forall l r : vec3 float, v3_dot l r = v3_dot r l) /\
  (forall l r : vec3 R, v3_dot l r = v3_dot r l).
Proof. split; [exact v3_dot_comm_binary64 | exact v3_dot_comm_R]. Qed.

(** X5: [v3_sub(l, r)] is [v3_add(l, v3_scale(r, -1))], for all binary64
    vectors and in exact arithmetic. *)
Theorem v3_sub_is_add_of_opposite :
  (forall l r : vec3 float, v3_sub l r = v3_add l (v3_scale r (-1)%float)) /\
  (forall l r : vec3 R, v3_sub l r = v3_add l (v3_scale r (-1)%R)).
Proof. split; [exact v3_sub_add_scale_binary64 | exact v3_sub_add_scale_R]. Qed.

(** X6: scaling by [1.0] returns the vector, for every binary64 vector;
    in exact arithmetic scaling twice is scaling by the product, and
    scaling distributes over [v3_add]. *)
Theorem v3_scale_laws :
  (forall v : vec3 float, v3_scale v 1%float = v) /\
  (forall (v : vec3 R) (a b : R),
      v3_scale (v3_scale v a) b = v3_scale v (a * b)%R) /\
  (forall (l r : vec3 R) (s : R),
      v3_scale (v3_add l r) s = v3_add (v3_scale l s) (v3_scale r s)).
Proof.
  split; [exact v3_scale_one_binary64 | split].
  - exact v3_scale_scale_R.
  - exact v3_scale_add_R.
Qed.

(** X7: a binary64 vector of finite components minus itself is the zero
    vector, and plus the zero vector it is equal ([==]) to itself; with an
    infinite component the difference is not-a-number there.  In exact
    arithmetic both are equations. *)
Theorem v3_sub_self_add_zero :
  (forall v : vec3 float,
      v3_finite v = true ->
      v3_sub v v = (V3 0 0 0)%float /\
      v3_eqn (v3_add v (V3 0 0 0)%float) v = true) /\
  v3_sub (V3 infinity 1 2)%float (V3 infinity 1 2)%float = (V3 nan 0 0)%float /\
  (forall v : vec3 R,
      v3_sub v v = (V3 0 0 0)%R /\ v3_add v (V3 0 0 0)%R = v).
Proof.
  split; [| split].
  - intros v Hfin. split; [apply v3_sub_self_binary64; exact Hfin |].
    destruct v as [a b c].
    cbv [v3_finite v3_eqn v3_add v3 x y z eqn add F_Arith] in *.
    apply andb_prop in Hfin. destruct Hfin as [Hfin Hc].
    apply andb_prop in Hfin. destruct Hfin as [Ha Hb].
    assert (Hnan : forall n, isFinite n = true -> isNaN n = false).
    { intros n Hn. rewrite isNaN_spec. unfold isFinite in Hn.
      destruct (Prim2SF n); try discriminate Hn; reflexivity. }
    rewrite !float_add_zero_r by (apply Hnan; assumption). reflexivity.
  - vm_compute. reflexivity.
  - intros v. split; [apply v3_sub_self_R | apply v3_add_zero_R].
Qed.

(** A vector of finite components, one of them negative zero. *)
Lemma v3_sub_self_add_zero_witness :
  v3_finite (V3 0.1 (-0) 1e300)%float = true /\
  v3_sub (V3 0.1 (-0) 1e300)%float (V3 0.1 (-0) 1e300)%float = (V3 0 0 0)%float /\
  v3_eqn (v3_add (V3 0.1 (-0) 1e300)%float (V3 0 0 0)%float)
         (V3 0.1 (-0) 1e300)%float = true.
Proof.
  split.
  - vm_compute. reflexivity.
  - apply (proj1 v3_sub_self_add_zero). vm_compute. reflexivity.
Defined.

(** X8: the cross product of a vector with itself is the zero vector: in
    binary64 whenever none of its components is not-a-number, in exact
    arithmetic always. *)
Theorem v3_cross_self_zero :
  (forall v : vec3 float,
      v3_eqn (v3_cross v v) (v3_cross v v) = true ->
      v3_cross v v = (V3 0 0 0)%float) /\
  (forall v : vec3 R, v3_cross v v = (V3 0 0 0)%R).
Proof. split; [exact v3_cross_self_binary64 | exact v3_cross_self_R]. Qed.

(** No component of the cross product of (0.1, 0.2, 0.3) with itself is
    not-a-number. *)
Lemma v3_cross_self_zero_witness :
  v3_eqn (v3_cross (V3 0.1 0.2 0.3) (V3 0.1 0.2 0.3))%float
         (v3_cross (V3 0.1 0.2 0.3) (V3 0.1 0.2 0.3))%float = true /\
  v3_cross (V3 0.1 0.2 0.3)%float (V3 0.1 0.2 0.3)%float = (V3 0 0 0)%float.
Proof.
  split.
  - vm_compute. reflexivity.
  - apply (proj1 v3_cross_self_zero). vm_compute. reflexivity.
Defined.

(** X9: in exact arithmetic the squared length of the cross product is the
    product of the squared lengths minus the squared dot product, and the
    absolute value of the dot product is at most the product of the
    lengths. *)
Theorem v3_cross_dot_lengths :
  forall l r : vec3 R,
    v3_dot (v3_cross l r) (v3_cross l r)
    = (v3_dot l l * v3_dot r r - v3_dot l r * v3_dot l r)%R /\
    (Rabs (v3_dot l r) <= v3_len l * v3_len r)%R.
Proof.
  intros l r. split; [apply v3_cross_lagrange_R | apply v3_dot_le_len_R].
Qed.

(** X10: in exact arithmetic the length is never negative and is zero for
    the zero vector only.  In binary64 the squares can underflow and
    overflow: the length of (1e-200, 0, 0) is 0 and the length of
    (1e200, 0, 0) is Infinity. *)
Theorem v3_len_definite :
  (forall v : vec3 R,
      (0 <= v3_len v)%R /\ (v3_len v = 0%R <-> v = (V3 0 0 0)%R)) /\
  v3_len (V3 1e-200 0 0)%float = 0%float /\
  v3_len (V3 1e200 0 0)%float = infinity.
Proof.
  split; [| split].
  - intros v. split; [apply v3_len_nonneg_R | apply v3_len_zero_iff_R].
  - vm_compute. reflexivity.
  - vm_compute. reflexivity.
Qed.

(** X11: in exact arithmetic the length of a scaled vector is the absolute
    value of the factor times the length, and the length of a sum is at
    most the sum of the lengths. *)
Theorem v3_len_norm :
  (forall (v : vec3 R) (s : R),
      v3_len (v3_scale v s) = (Rabs s * v3_len v)%R) /\
  (forall l r : vec3 R, (v3_len (v3_add l r) <= v3_len l + v3_len r)%R).
Proof. split; [exact v3_len_scale_R | exact v3_len_triangle_R]. Qed.

(** X12: the specification defines the unit vector as the vector scaled
    by the inverse of its length.  Computed with [v3_scale] and [v3_len]
    in binary64, for a vector whose length is zero no component of
    [v3_scale(v, 1.0 / v3_len(v))] is finite: the zero vector gives three
    not-a-numbers; (1e-200, 0, 0), whose square underflows, gives
    (Infinity, NaN, NaN).  For (1e200, 0, 0), whose square overflows, the
    length is Infinity and the scaled vector is the zero vector. *)
Theorem v3_scale_inverse_zero_length :
  (forall v : vec3 float,
      (v3_len v == lit0)%num = true ->
      v3_finite (v3_scale v (lit1 / v3_len v)%num) = false /\
      isFinite (x (v3_scale v (lit1 / v3_len v)%num)) = false /\
      isFinite (y (v3_scale v (lit1 / v3_len v)%num)) = false /\
      isFinite (z (v3_scale v (lit1 / v3_len v)%num)) = false) /\
  v3_scale (V3 0 0 0)%float (1 / v3_len (V3 0 0 0))%float = V3 nan nan nan /\
  v3_scale (V3 1e-200 0 0)%float (1 / v3_len (V3 1e-200 0 0))%float
  = V3 infinity nan nan /\
  v3_len (V3 1e200 0 0)%float = infinity /\
  v3_scale (V3 1e200 0 0)%float (1 / v3_len (V3 1e200 0 0))%float
  = (V3 0 0 0)%float.
Proof.
  split; [exact v3_scale_inverse_zero_length_binary64 |].
  repeat split; vm_compute; reflexivity.
Qed.

(** The length of (1e-200, 0, 0) is zero. *)
Lemma v3_scale_inverse_zero_length_witness :
  (v3_len (V3 1e-200 0 0)%float == lit0)%num = true /\
  v3_finite (v3_scale (V3 1e-200 0 0)%float
               (lit1 / v3_len (V3 1e-200 0 0)%float)%num) = false /\
  isFinite (x (v3_scale (V3 1e-200 0 0)%float
                 (lit1 / v3_len (V3 1e-200 0 0)%float)%num)) = false /\
  isFinite (y (v3_scale (V3 1e-200 0 0)%float
                 (lit1 / v3_len (V3 1e-200 0 0)%float)%num)) = false /\
  isFinite (z (v3_scale (V3 1e-200 0 0)%float
                 (lit1 / v3_len (V3 1e-200 0 0)%float)%num)) = false.
Proof.
  split.
  - vm_compute. reflexivity.
  - apply (proj1 v3_scale_inverse_zero_length). vm_compute. reflexivity.
Defined.

(** X13: in exact arithmetic, for vectors whose length is not zero,
    scaling by the inverse of the length with [v3_scale] and [v3_len]
    normalizes: the result has length 1, normalizing it again returns it,
    it does not change when the vector is first scaled by a positive
    number, and the dot product of two normalized vectors lies between -1
    and 1; (3, 4, 0) scaled by the inverse of its length is
    (0.6, 0.8, 0).  In binary64 the same scaling of (3, 4, 0) gives
    (0.6000000000000001, 0.8, 0), of length 1. *)
Theorem v3_scale_inverse_length :
  (forall v : vec3 R,
      v3_len v <> 0%R -> v3_len (v3_scale v (1 / v3_len v)%R) = 1%R) /\
  (forall v : vec3 R,
      v3_len v <> 0%R ->
      v3_scale (v3_scale v (1 / v3_len v)%R)
               (1 / v3_len (v3_scale v (1 / v3_len v)%R))%R
      = v3_scale v (1 / v3_len v)%R) /\
  (forall (v : vec3 R) (s : R),
      (0 < s)%R -> v3_len v <> 0%R ->
      v3_scale (v3_scale v s) (1 / v3_len (v3_scale v s))%R
      = v3_scale v (1 / v3_len v)%R) /\
  (forall a b : vec3 R,
      v3_len a <> 0%R -> v3_len b <> 0%R ->
      (-1 <= v3_dot (v3_scale a (1 / v3_len a)%R) (v3_scale b (1 / v3_len b)%R)
       <= 1)%R) /\
  v3_scale (V3 3 4 0)%R (1 / v3_len (V3 3 4 0)%R)%R = (V3 0.6 0.8 0)%R /\
  v3_scale (V3 3 4 0)%float (1 / v3_len (V3 3 4 0))%float
  = (V3 0.6000000000000001 0.8 0)%float /\
  v3_len (v3_scale (V3 3 4 0)%float (1 / v3_len (V3 3 4 0))%float) = 1%float.
Proof.
  split; [exact v3_len_normalized_R | split; [| split; [| split; [| split; [| split]]]]].
  - exact v3_normalized_idempotent_R.
  - exact v3_normalized_scale_R.
  - exact v3_normalized_dot_bounds_R.
  - rewrite v3_len_3_4_0_R. cbv [v3_scale v3 x y z mul R_Arith].
    apply (f_equal3 (@V3 R)); lra.
  - vm_compute. reflexivity.
  - vm_compute. reflexivity.
Qed.

(** The vector (3, 4, 0) has length 5. *)
Lemma v3_scale_inverse_length_witness :
  v3_len (V3 3 4 0)%R <> 0%R /\ (0 < 2)%R /\
  v3_len (v3_scale (V3 3 4 0)%R (1 / v3_len (V3 3 4 0)%R)%R) = 1%R /\
  v3_scale (v3_scale (V3 3 4 0)%R (1 / v3_len (V3 3 4 0)%R)%R)
           (1 / v3_len (v3_scale (V3 3 4 0)%R (1 / v3_len (V3 3 4 0)%R)%R))%R
  = v3_scale (V3 3 4 0)%R (1 / v3_len (V3 3 4 0)%R)%R /\
  v3_scale (v3_scale (V3 3 4 0)%R 2%R)
           (1 / v3_len (v3_scale (V3 3 4 0)%R 2%R))%R
  = v3_scale (V3 3 4 0)%R (1 / v3_len (V3 3 4 0)%R)%R /\
  (-1 <= v3_dot (v3_scale (V3 3 4 0)%R (1 / v3_len (V3 3 4 0)%R)%R)
                (v3_scale (V3 3 4 0)%R (1 / v3_len (V3 3 4 0)%R)%R) <= 1)%R.
Proof.
  assert (Hlen : v3_len (V3 3 4 0)%R <> 0%R).
  { rewrite v3_len_3_4_0_R. lra. }
  split; [exact Hlen | split; [lra | split; [| split; [| split]]]].
  - apply (proj1 v3_scale_inverse_length). exact Hlen.
  - apply (proj1 (proj2 v3_scale_inverse_length)). exact Hlen.
  - apply (proj1 (proj2 (proj2 v3_scale_inverse_length))); [lra | exact Hlen].
  - apply (proj1 (proj2 (proj2 (proj2 v3_scale_inverse_length)))); exact Hlen.
Defined.

(** X14: when the determinant is not zero, the columns of [m3x3_inv(m)]
    are the cross products of the rows of [m] taken two by two, [y] with
    [z], [z] with [x], [x] with [y], each scaled by [1 / det]: for all
    binary64 matrices, entry for entry the same number, and in exact
    arithmetic, where the determinant is the dot product of the first row
    with the cross product of the other two. *)
Theorem m3x3_inv_columns_are_cross_products :
  (forall m : mat3 float,
      (m3x3_det m == lit0)%num = false ->
      m3x3_inv m =
      m3x3_transp
        (M3 (v3_scale (v3_cross (my m) (mz m)) (lit1 / m3x3_det m)%num)
            (v3_scale (v3_cross (mz m) (mx m)) (lit1 / m3x3_det m)%num)
            (v3_scale (v3_cross (mx m) (my m)) (lit1 / m3x3_det m)%num))) /\
  (forall m : mat3 R,
      m3x3_det m <> 0%R ->
      m3x3_inv m =
      m3x3_transp
        (M3 (v3_scale (v3_cross (my m) (mz m)) (1 / m3x3_det m)%R)
            (v3_scale (v3_cross (mz m) (mx m)) (1 / m3x3_det m)%R)
            (v3_scale (v3_cross (mx m) (my m)) (1 / m3x3_det m)%R))) /\
  (forall m : mat3 R,
      m3x3_det m = v3_dot (mx m) (v3_cross (my m) (mz m))).
Proof.
  split; [exact m3x3_inv_cross_binary64 | split].
  - exact m3x3_inv_cross_R.
  - exact m3x3_det_triple_R.
Qed.

(** The matrix of rows (2,0,1), (1,3,0), (0,1,4) has determinant 25. *)
Lemma m3x3_inv_columns_are_cross_products_witness :
  ((m3x3_det (m3x3 2 0 1 1 3 0 0 1 4)%float == lit0)%num = false /\
   m3x3_inv (m3x3 2 0 1 1 3 0 0 1 4)%float =
   m3x3_transp
     (M3 (v3_scale (v3_cross (V3 1 3 0) (V3 0 1 4)) (1 / 25))
         (v3_scale (v3_cross (V3 0 1 4) (V3 2 0 1)) (1 / 25))
         (v3_scale (v3_cross (V3 2 0 1) (V3 1 3 0)) (1 / 25)))%float) /\
  (m3x3_det (m3x3 2 0 1 1 3 0 0 1 4)%R <> 0%R /\
   m3x3_inv (m3x3 2 0 1 1 3 0 0 1 4)%R =
   m3x3_transp
     (M3 (v3_scale (v3_cross (V3 1 3 0) (V3 0 1 4))
            (1 / m3x3_det (m3x3 2 0 1 1 3 0 0 1 4)))
         (v3_scale (v3_cross (V3 0 1 4) (V3 2 0 1))
            (1 / m3x3_det (m3x3 2 0 1 1 3 0 0 1 4)))
         (v3_scale (v3_cross (V3 2 0 1) (V3 1 3 0))
            (1 / m3x3_det (m3x3 2 0 1 1 3 0 0 1 4))))%R).
Proof.
  assert (Hdet : m3x3_det (m3x3 2 0 1 1 3 0 0 1 4)%R <> 0%R).
  { unfold m3x3_det, m3x3, v3. cbn. lra. }
  split; split.
  - vm_compute. reflexivity.
  - apply (proj1 m3x3_inv_columns_are_cross_products). vm_compute. reflexivity.
  - exact Hdet.
  - apply (proj1 (proj2 m3x3_inv_columns_are_cross_products) _ Hdet).
Defined.

(** X15: in exact arithmetic, when the determinant is not zero,
    [m3x3_mul(m, m3x3_inv(m))] is the identity matrix: the inverse is a
    right inverse too, as the doc comment of [m3x3_inv] says. *)
Theorem m3x3_inv_right_inverse :
  forall m : mat3 R,
    m3x3_det m <> 0%R -> m3x3_mul m (m3x3_inv m) = m3x3_identity.
Proof. exact m3x3_mul_inv_R. Qed.

(** The matrix of rows (2,0,1), (1,3,0), (0,1,4) has determinant 25. *)
Lemma m3x3_inv_right_inverse_witness :
  m3x3_det (m3x3 2 0 1 1 3 0 0 1 4)%R <> 0%R /\
  m3x3_mul (m3x3 2 0 1 1 3 0 0 1 4)%R (m3x3_inv (m3x3 2 0 1 1 3 0 0 1 4)%R)
  = m3x3_identity.
Proof.
  assert (Hdet : m3x3_det (m3x3 2 0 1 1 3 0 0 1 4)%R <> 0%R).
  { unfold m3x3_det, m3x3, v3. cbn. lra. }
  split; [exact Hdet | apply (m3x3_inv_right_inverse _ Hdet)].
Defined.

(** X16: in exact arithmetic, when the determinant is not zero, inverting
    twice returns the matrix, and the determinant of the inverse is the
    inverse of the determinant. *)
Theorem m3x3_inv_involutive :
  forall m : mat3 R,
    m3x3_det m <> 0%R ->
    m3x3_inv (m3x3_inv m) = m /\ m3x3_det (m3x3_inv m) = (/ m3x3_det m)%R.
Proof.
  intros m Hdet. split; [apply m3x3_inv_inv_R | apply m3x3_det_inv_R]; exact Hdet.
Qed.

(** The matrix of rows (2,0,1), (1,3,0), (0,1,4) has determinant 25. *)
Lemma m3x3_inv_involutive_witness :
  m3x3_det (m3x3 2 0 1 1 3 0 0 1 4)%R <> 0%R /\
  m3x3_inv (m3x3_inv (m3x3 2 0 1 1 3 0 0 1 4)%R) = (m3x3 2 0 1 1 3 0 0 1 4)%R /\
  m3x3_det (m3x3_inv (m3x3 2 0 1 1 3 0 0 1 4)%R)
  = (/ m3x3_det (m3x3 2 0 1 1 3 0 0 1 4))%R.
Proof.
  assert (Hdet : m3x3_det (m3x3 2 0 1 1 3 0 0 1 4)%R <> 0%R).
  { unfold m3x3_det, m3x3, v3. cbn. lra. }
  split; [exact Hdet | apply (m3x3_inv_involutive _ Hdet)].
Defined.

(** X17: in exact arithmetic the inverse of a product of two matrices of
    non-zero determinant is the product of the inverses in the opposite
    order. *)
Theorem m3x3_inv_of_product :
  forall a b : mat3 R,
    m3x3_det a <> 0%R -> m3x3_det b <> 0%R ->
    m3x3_inv (m3x3_mul a b) = m3x3_mul (m3x3_inv b) (m3x3_inv a).
Proof. exact m3x3_inv_mul_rev_R. Qed.

(** Two matrices of determinants 25 and 2. *)
Lemma m3x3_inv_of_product_witness :
  m3x3_det (m3x3 2 0 1 1 3 0 0 1 4)%R <> 0%R /\
  m3x3_det (m3x3 1 1 0 0 1 0 0 0 2)%R <> 0%R /\
  m3x3_inv (m3x3_mul (m3x3 2 0 1 1 3 0 0 1 4)%R (m3x3 1 1 0 0 1 0 0 0 2)%R)
  = m3x3_mul (m3x3_inv (m3x3 1 1 0 0 1 0 0 0 2)%R)
             (m3x3_inv (m3x3 2 0 1 1 3 0 0 1 4)%R).
Proof.
  assert (Ha : m3x3_det (m3x3 2 0 1 1 3 0 0 1 4)%R <> 0%R).
  { unfold m3x3_det, m3x3, v3. cbn. lra. }
  assert (Hb : m3x3_det (m3x3 1 1 0 0 1 0 0 0 2)%R <> 0%R).
  { unfold m3x3_det, m3x3, v3. cbn. lra. }
  split; [exact Ha | split; [exact Hb | apply (m3x3_inv_of_product _ _ Ha Hb)]].
Defined.

(** X18: in exact arithmetic, for a matrix whose determinant is zero the
    matrix that [m3x3_inv] returns is not an inverse:
    [m3x3_mul(m3x3_inv(m), m)] is [m] itself and is not the identity
    matrix. *)
Theorem m3x3_inv_singular_is_no_inverse :
  forall m : mat3 R,
    m3x3_det m = 0%R ->
    m3x3_mul (m3x3_inv m) m = m /\ m3x3_mul (m3x3_inv m) m <> m3x3_identity.
Proof. exact m3x3_inv_singular_not_inverse_R. Qed.

(** The matrix of rows (1,2,3), (2,4,6), (0,0,1) has determinant 0. *)
Lemma m3x3_inv_singular_is_no_inverse_witness :
  m3x3_det (m3x3 1 2 3 2 4 6 0 0 1)%R = 0%R /\
  m3x3_mul (m3x3_inv (m3x3 1 2 3 2 4 6 0 0 1)%R) (m3x3 1 2 3 2 4 6 0 0 1)%R
  = (m3x3 1 2 3 2 4 6 0 0 1)%R /\
  m3x3_mul (m3x3_inv (m3x3 1 2 3 2 4 6 0 0 1)%R) (m3x3 1 2 3 2 4 6 0 0 1)%R
  <> m3x3_identity.
Proof.
  assert (Hdet : m3x3_det (m3x3 1 2 3 2 4 6 0 0 1)%R = 0%R).
  { unfold m3x3_det, m3x3, v3. cbn. ring. }
  split; [exact Hdet | apply (m3x3_inv_singular_is_no_inverse _ Hdet)].
Defined.

(** X19: a binary64 matrix with a not-a-number entry has a not-a-number
    determinant, which is not equal to [0.0]: [m3x3_inv] does not fall
    back to the identity and returns the matrix of nine not-a-numbers. *)
Theorem m3x3_inv_nan_propagates :
  forall m : mat3 float,
    m3x3_has_nan m = true ->
    isNaN (m3x3_det m) = true /\
    m3x3_inv m = m3x3 nan nan nan nan nan nan nan nan nan.
Proof.
  intros m H. split; [apply m3x3_det_nan | apply m3x3_inv_nan]; exact H.
Qed.

(** The identity matrix with one entry replaced by not-a-number. *)
Lemma m3x3_inv_nan_propagates_witness :
  m3x3_has_nan (m3x3 1 0 0 0 1 0 0 nan 1)%float = true /\
  isNaN (m3x3_det (m3x3 1 0 0 0 1 0 0 nan 1)%float) = true /\
  m3x3_inv (m3x3 1 0 0 0 1 0 0 nan 1)%float
  = m3x3 nan nan nan nan nan nan nan nan nan.
Proof.
  split.
  - vm_compute. reflexivity.
  - apply m3x3_inv_nan_propagates. vm_compute. reflexivity.
Defined.

(** X20: in exact arithmetic [m3x3_mul] is associative, the determinant of
    a product is the product of the determinants, the determinant of the
    transpose is the determinant, and [m3x3_mul] is not commutative, as
    its doc comment notes. *)
Theorem m3x3_mul_laws :
  (forall a b c : mat3 R,
      m3x3_mul (m3x3_mul a b) c = m3x3_mul a (m3x3_mul b c)) /\
  (forall a b : mat3 R,
      m3x3_det (m3x3_mul a b) = (m3x3_det a * m3x3_det b)%R) /\
  (forall a : mat3 R, m3x3_det (m3x3_transp a) = m3x3_det a) /\
  (exists a b : mat3 R, m3x3_mul a b <> m3x3_mul b a).
Proof.
  split; [exact m3x3_mul_assoc_R | split; [exact m3x3_det_mul_R | split]].
  - exact m3x3_det_transp_R.
  - exact m3x3_mul_not_comm_R.
Qed.

(** X21: in exact arithmetic transforming by [a] and then by [b] is
    transforming by [m3x3_mul(b, a)], the transform by the identity matrix
    returns the vector, and the transform is linear. *)
Theorem transform_composes :
  (forall (v : vec3 R) (a b : mat3 R),
      v3_m3x3_mul (v3_m3x3_mul v a) b = v3_m3x3_mul v (m3x3_mul b a)) /\
  (forall v : vec3 R, v3_m3x3_mul v m3x3_identity = v) /\
  (forall (l r : vec3 R) (s : R) (m : mat3 R),
      v3_m3x3_mul (v3_add l r) m = v3_add (v3_m3x3_mul l m) (v3_m3x3_mul r m) /\
      v3_m3x3_mul (v3_scale l s) m = v3_scale (v3_m3x3_mul l m) s).
Proof.
  split; [exact transform_compose_R | split].
  - exact transform_identity_R.
  - exact transform_linear_R.
Qed.

(** X22: in exact arithmetic [m3x3_euler(head, pitch, roll)] is the
    product of the roll, pitch and head rotations, in this order, and the
    transform by it applies the head rotation first, then the pitch, then
    the roll. *)
Theorem m3x3_euler_decomposes :
  forall nhead npitch nroll : R,
    m3x3_euler nhead npitch nroll
    = m3x3_mul (m3x3_mul (m3x3_euler 0%R 0%R nroll) (m3x3_euler 0%R npitch 0%R))
               (m3x3_euler nhead 0%R 0%R) /\
    forall v : vec3 R,
      v3_m3x3_mul v (m3x3_euler nhead npitch nroll)
      = v3_m3x3_mul
          (v3_m3x3_mul (v3_m3x3_mul v (m3x3_euler nhead 0%R 0%R))
                       (m3x3_euler 0%R npitch 0%R))
          (m3x3_euler 0%R 0%R nroll).
Proof.
  intros h p r. split.
  - apply m3x3_euler_decompose_R.
  - intros v. apply transform_euler_steps_R.
Qed.

(** X23: in exact arithmetic the matrix of [m3x3_euler] is orthogonal: its
    products with its transpose, on either side, are the identity matrix,
    and [m3x3_inv] of it is its transpose. *)
Theorem m3x3_euler_orthogonal :
  forall nhead npitch nroll : R,
    m3x3_mul (m3x3_euler nhead npitch nroll)
             (m3x3_transp (m3x3_euler nhead npitch nroll)) = m3x3_identity /\
    m3x3_mul (m3x3_transp (m3x3_euler nhead npitch nroll))
             (m3x3_euler nhead npitch nroll) = m3x3_identity /\
    m3x3_inv (m3x3_euler nhead npitch nroll)
    = m3x3_transp (m3x3_euler nhead npitch nroll).
Proof.
  intros h p r. split; [apply m3x3_euler_orthogonal_R | split].
  - apply m3x3_euler_transp_orthogonal_R.
  - apply m3x3_inv_euler_R.
Qed.

(** X24: in exact arithmetic the transform by a matrix of [m3x3_euler]
    keeps dot products and lengths. *)
Theorem m3x3_euler_isometry :
  forall (nhead npitch nroll : R) (u v : vec3 R),
    v3_dot (v3_m3x3_mul u (m3x3_euler nhead npitch nroll))
           (v3_m3x3_mul v (m3x3_euler nhead npitch nroll)) = v3_dot u v /\
    v3_len (v3_m3x3_mul v (m3x3_euler nhead npitch nroll)) = v3_len v.
Proof.
  intros h p r u v. split.
  - apply euler_preserves_dot_R.
  - apply euler_preserves_len_R.
Qed.

(** X25: in exact arithmetic rotations about one axis add their angles:
    the product of two head rotations is the head rotation by the sum, and
    the same for pitch and for roll. *)
Theorem m3x3_euler_angles_add :
  (forall h1 h2 : R,
      m3x3_euler (h1 + h2)%R 0%R 0%R
      = m3x3_mul (m3x3_euler h1 0%R 0%R) (m3x3_euler h2 0%R 0%R)) /\
  (forall p1 p2 : R,
      m3x3_euler 0%R (p1 + p2)%R 0%R
      = m3x3_mul (m3x3_euler 0%R p1 0%R) (m3x3_euler 0%R p2 0%R)) /\
  (forall r1 r2 : R,
      m3x3_euler 0%R 0%R (r1 + r2)%R
      = m3x3_mul (m3x3_euler 0%R 0%R r1) (m3x3_euler 0%R 0%R r2)).
Proof.
  split; [exact m3x3_euler_head_add_R | split].
  - exact m3x3_euler_pitch_add_R.
  - exact m3x3_euler_roll_add_R.
Qed.

(** X26: the vector functions on the untyped values of [Js]
    ([undefined], [null], booleans, numbers, strings, and ordinary objects
    of data properties).  A call throws a [TypeError] exactly when an
    argument read as a vector is [undefined] or [null], or a component
    [x], [y], [z] that it converts (or the factor of [v3_scale], or an
    argument of [v3]) is an object with an own property [toString], which
    hides the inherited method and cannot be called.  In every other case
    the call returns what the typed function returns on the numbers read
    from the arguments; [v3_add], whose [+] concatenates strings, returns
    a vector of numbers. *)
Theorem js_vector_functions_throw_iff :
  forall eng : Js.engine,
    (forall nx ny nz : Js.value,
        Js.v3 eng nx ny nz =
        if js_unconvertible nx || js_unconvertible ny || js_unconvertible nz
        then Js.Throw Js.TypeError
        else Js.Normal (Js.of_vec3
               (v3 (js_number eng nx) (js_number eng ny) (js_number eng nz)))) /\
    (forall vl vr : Js.value,
        Js.v3_add eng vl vr =
        if js_no_vector vl || js_no_vector vr then Js.Throw Js.TypeError
        else Js.Normal (Js.of_vec3
               (V3 (js_number eng (js_sum eng (js_prop vl "x") (js_prop vr "x")))
                   (js_number eng (js_sum eng (js_prop vl "y") (js_prop vr "y")))
                   (js_number eng (js_sum eng (js_prop vl "z") (js_prop vr "z")))))) /\
    (forall vl vr : Js.value,
        Js.v3_sub eng vl vr =
        if js_no_vector vl || js_no_vector vr then Js.Throw Js.TypeError
        else Js.Normal (Js.of_vec3 (v3_sub (js_vector eng vl) (js_vector eng vr)))) /\
    (forall vl nr : Js.value,
        Js.v3_scale eng vl nr =
        if js_no_vector vl || js_unconvertible nr then Js.Throw Js.TypeError
        else Js.Normal (Js.of_vec3
               (v3_scale (js_vector eng vl) (js_number eng nr)))) /\
    (forall v : Js.value,
        Js.v3_len eng v =
        if js_no_vector v then Js.Throw Js.TypeError
        else Js.Normal (Js.VNumber (v3_len (js_vector eng v)))) /\
    (forall vl vr : Js.value,
        Js.v3_dot eng vl vr =
        if js_no_vector vl || js_no_vector vr then Js.Throw Js.TypeError
        else Js.Normal (Js.VNumber (v3_dot (js_vector eng vl) (js_vector eng vr)))) /\
    (forall vl vr : Js.value,
        Js.v3_cross eng vl vr =
        if js_no_vector vl || js_no_vector vr then Js.Throw Js.TypeError
        else Js.Normal (Js.of_vec3
               (v3_cross' (js_vector eng vl) (js_vector eng vr)))).
Proof.
  intros eng.
  split; [exact (js_v3_any eng) |].
  split; [exact (js_v3_add_any eng) |].
  split; [exact (js_v3_sub_any eng) |].
  split; [exact (js_v3_scale_any eng) |].
  split; [exact (js_v3_len_any eng) |].
  split; [exact (js_v3_dot_any eng) | exact (js_v3_cross_any eng)].
Qed.

(** X27: the matrix functions on the untyped values of [Js].  A call
    throws a [TypeError] exactly when a value read as a matrix is
    [undefined] or [null] or has a row [x], [y] or [z] that cannot be read
    as a vector (and, for [v3_m3x3_mul], when the vector cannot be read;
    for [m3x3] and [m3x3_euler], when an argument is an object with an own
    property [toString]).  In every other case the call returns what the
    typed function returns on the numbers read from the arguments. *)
Theorem js_matrix_functions_throw_iff :
  forall eng : Js.engine,
    (forall m : Js.value,
        Js.m3x3_transp eng m =
        if js_no_matrix m then Js.Throw Js.TypeError
        else Js.Normal (Js.of_mat3 (m3x3_transp (js_matrix eng m)))) /\
    (forall m : Js.value,
        Js.m3x3_inv eng m =
        if js_no_matrix m then Js.Throw Js.TypeError
        else Js.Normal (Js.of_mat3 (m3x3_inv (js_matrix eng m)))) /\
    (forall ml mr : Js.value,
        Js.m3x3_mul eng ml mr =
        if js_no_matrix ml || js_no_matrix mr then Js.Throw Js.TypeError
        else Js.Normal (Js.of_mat3
               (m3x3_mul (js_matrix eng ml) (js_matrix eng mr)))) /\
    (forall vl mr : Js.value,
        Js.v3_m3x3_mul eng vl mr =
        if js_no_vector vl || js_no_matrix mr then Js.Throw Js.TypeError
        else Js.Normal (Js.of_vec3
               (v3_m3x3_mul (js_vector eng vl) (js_matrix eng mr)))) /\
    (forall nhead npitch nroll : Js.value,
        Js.m3x3_euler eng nhead npitch nroll =
        if js_unconvertible nhead || js_unconvertible npitch ||
           js_unconvertible nroll
        then Js.Throw Js.TypeError
        else Js.Normal (Js.of_mat3
               (m3x3_euler (T := F_Trig (Js.MathSin eng) (Js.MathCos eng))
                  (js_number eng nhead) (js_number eng npitch)
                  (js_number eng nroll)))) /\
    (forall nxx nxy nxz nyx nyy nyz nzx nzy nzz : Js.value,
        Js.m3x3 eng nxx nxy nxz nyx nyy nyz nzx nzy nzz =
        if js_unconvertible nxx || js_unconvertible nxy || js_unconvertible nxz ||
           js_unconvertible nyx || js_unconvertible nyy || js_unconvertible nyz ||
           js_unconvertible nzx || js_unconvertible nzy || js_unconvertible nzz
        then Js.Throw Js.TypeError
        else Js.Normal (Js.of_mat3
               (m3x3 (js_number eng nxx) (js_number eng nxy) (js_number eng nxz)
                     (js_number eng nyx) (js_number eng nyy) (js_number eng nyz)
                     (js_number eng nzx) (js_number eng nzy) (js_number eng nzz)))).
Proof.
  intros eng.
  split; [exact (js_m3x3_transp_any eng) |].
  split; [exact (js_m3x3_inv_any eng) |].
  split; [exact (js_m3x3_mul_any eng) |].
  split; [exact (js_v3_m3x3_mul_any eng) |].
  split; [exact (js_m3x3_euler_any eng) | exact (js_m3x3_spec eng)].
Qed.

(** X28: [v3_add] adds with [+], which concatenates strings: on two
    vector objects whose components are strings, each component of the
    result is the number read from the concatenation of the two strings,
    while [v3_sub] subtracts the numbers read from each string. *)
Theorem js_v3_add_concatenates_strings :
  forall (eng : Js.engine) (sx sy sz tx ty tz : string),
    Js.v3_add eng (js_string_vector sx sy sz) (js_string_vector tx ty tz)
    = Js.Normal (Js.of_vec3
        (V3 (Js.StringToNumber eng (sx ++ tx))
            (Js.StringToNumber eng (sy ++ ty))
            (Js.StringToNumber eng (sz ++ tz)))) /\
    Js.v3_sub eng (js_string_vector sx sy sz) (js_string_vector tx ty tz)
    = Js.Normal (Js.of_vec3
        (V3 (Js.StringToNumber eng sx - Js.StringToNumber eng tx)
            (Js.StringToNumber eng sy - Js.StringToNumber eng ty)
            (Js.StringToNumber eng sz - Js.StringToNumber eng tz))%float).
Proof.
  intros. split; [apply js_v3_add_strings | apply js_v3_sub_strings].
Qed.

(** X29: [v3_str] on the untyped values of [Js] throws a [TypeError]
    exactly when its argument cannot be read as a vector ([undefined],
    [null], or a component that is an object with an own property
    [toString]); otherwise it returns the three numerals
    [parseFloat(c).toFixed(2)] of the components joined by [", "].  When no
    text of [toFixed(2)] holds a comma, splitting that string at [", "]
    gives back the three numerals in the order x, y, z; on a vector of
    numbers they are the numerals of the numbers. *)
Theorem js_v3_str_fields :
  forall (eng : Js.engine) (txt : JsText.text_engine),
    (forall v : Js.value,
        JsText.v3_str eng txt v =
        if js_no_vector v then Js.Throw Js.TypeError
        else Js.Normal (Js.VString (js_text eng txt v))) /\
    ((forall n : float, lacks "," (JsText.NumberToFixed2 txt n) = true) ->
     forall v : Js.value,
       split_comma_space EmptyString (js_text eng txt v)
       = [js_numeral eng txt (js_prop v "x"); js_numeral eng txt (js_prop v "y");
          js_numeral eng txt (js_prop v "z")]) /\
    (forall v : vec3 float,
        JsText.v3_str eng txt (Js.of_vec3 v)
        = Js.Normal (Js.VString (v3_text eng txt v)) /\
        js_text eng txt (Js.of_vec3 v) = v3_text eng txt v).
Proof.
  intros eng txt. split; [| split].
  - apply js_v3_str_any.
  - intros Hcomma v. apply js_text_fields. exact Hcomma.
  - intros v. split; [apply js_v3_str_ok | reflexivity].
Qed.

(** An engine that prints and reads 1, 2 and 3, and whose [toFixed(2)]
    answers [1.00], [2.00] and [3.00]. *)
Lemma js_v3_str_fields_witness :
  JsText.v3_str
    (Js.Engine (fun n => if PrimFloat.eqb n 1 then "1" else
                         if PrimFloat.eqb n 2 then "2" else "3")%string
               (fun _ => nan) (fun n => n) (fun n => n))
    (JsText.TextEngine
       (fun s => if String.eqb s "1" then 1 else
                 if String.eqb s "2" then 2 else 3)%float
       (fun n => if PrimFloat.eqb n 1 then "1.00" else
                 if PrimFloat.eqb n 2 then "2.00" else "3.00")%string)
    (Js.of_vec3 (V3 1 2 3)%float)
  = Js.Normal (Js.VString "1.00, 2.00, 3.00") /\
  split_comma_space EmptyString "1.00, 2.00, 3.00"
  = ["1.00"; "2.00"; "3.00"]%string.
Proof.
  split; [reflexivity |].
  apply (proj1 (proj2 (js_v3_str_fields
                  (Js.Engine (fun n => if PrimFloat.eqb n 1 then "1" else
                                       if PrimFloat.eqb n 2 then "2" else "3")%string
                             (fun _ => nan) (fun n => n) (fun n => n))
                  (JsText.TextEngine
                     (fun s => if String.eqb s "1" then 1 else
                               if String.eqb s "2" then 2 else 3)%float
                     (fun n => if PrimFloat.eqb n 1 then "1.00" else
                               if PrimFloat.eqb n 2 then "2.00" else "3.00")%string)))
               (fun n => match PrimFloat.eqb n 1 as b, PrimFloat.eqb n 2 as c
                               return lacks ","
                                        (if b then "1.00" else
                                         if c then "2.00" else "3.00")%string = true
                         with
                         | true, _ => eq_refl
                         | false, true => eq_refl
                         | false, false => eq_refl
                         end)
               (Js.of_vec3 (V3 1 2 3)%float)).
Defined.

(** X30: [m3x3_str] on the untyped values of [Js] throws a [TypeError]
    exactly when its argument cannot be read as a matrix ([undefined],
    [null], or a row that cannot be read as a vector); otherwise it
    returns the lines that [v3_str] returns for the rows x, y, z, joined by
    line feeds.  When no text of [toFixed(2)] holds a line feed, splitting
    that string at the line feeds gives back the three lines. *)
Theorem js_m3x3_str_lines :
  forall (eng : Js.engine) (txt : JsText.text_engine),
    (forall m : Js.value,
        JsText.m3x3_str eng txt m =
        if js_no_matrix m then Js.Throw Js.TypeError
        else Js.Normal (Js.VString
               (js_text eng txt (js_prop m "x") ++ JsText.newline ++
                js_text eng txt (js_prop m "y") ++ JsText.newline ++
                js_text eng txt (js_prop m "z")))) /\
    ((forall n : float,
         lacks (Ascii.ascii_of_nat 10) (JsText.NumberToFixed2 txt n) = true) ->
     forall m : Js.value,
       split_newline EmptyString
         (js_text eng txt (js_prop m "x") ++ JsText.newline ++
          js_text eng txt (js_prop m "y") ++ JsText.newline ++
          js_text eng txt (js_prop m "z"))
       = [js_text eng txt (js_prop m "x"); js_text eng txt (js_prop m "y");
          js_text eng txt (js_prop m "z")]) /\
    (forall m : mat3 float,
        JsText.m3x3_str eng txt (Js.of_mat3 m)
        = Js.Normal (Js.VString
            (v3_text eng txt (mx m) ++ JsText.newline ++
             v3_text eng txt (my m) ++ JsText.newline ++
             v3_text eng txt (mz m))) /\
        JsText.v3_str eng txt (Js.of_vec3 (mx m))
        = Js.Normal (Js.VString (v3_text eng txt (mx m))) /\
        JsText.v3_str eng txt (Js.of_vec3 (my m))
        = Js.Normal (Js.VString (v3_text eng txt (my m))) /\
        JsText.v3_str eng txt (Js.of_vec3 (mz m))
        = Js.Normal (Js.VString (v3_text eng txt (mz m)))).
Proof.
  intros eng txt. split; [| split].
  - apply js_m3x3_str_any.
  - intros Hline m.
    rewrite !split_newline_piece, split_newline_last
      by (apply js_text_one_line; exact Hline).
    reflexivity.
  - intros m. split; [apply js_m3x3_str_ok |].
    repeat split; apply js_v3_str_ok.
Qed.

(** An engine that prints and reads 1, 2 and 3, and whose [toFixed(2)]
    answers [1.00], [2.00] and [3.00]. *)
Lemma js_m3x3_str_lines_witness :
  JsText.m3x3_str
    (Js.Engine (fun n => if PrimFloat.eqb n 1 then "1" else
                         if PrimFloat.eqb n 2 then "2" else "3")%string
               (fun _ => nan) (fun n => n) (fun n => n))
    (JsText.TextEngine
       (fun s => if String.eqb s "1" then 1 else
                 if String.eqb s "2" then 2 else 3)%float
       (fun n => if PrimFloat.eqb n 1 then "1.00" else
                 if PrimFloat.eqb n 2 then "2.00" else "3.00")%string)
    (Js.of_mat3 (m3x3 1 2 3 3 1 2 2 3 1)%float)
  = Js.Normal (Js.VString
      ("1.00, 2.00, 3.00" ++ JsText.newline ++ "3.00, 1.00, 2.00" ++
       JsText.newline ++ "2.00, 3.00, 1.00")) /\
  split_newline EmptyString
    ("1.00, 2.00, 3.00" ++ JsText.newline ++ "3.00, 1.00, 2.00" ++
     JsText.newline ++ "2.00, 3.00, 1.00")
  = ["1.00, 2.00, 3.00"; "3.00, 1.00, 2.00"; "2.00, 3.00, 1.00"]%string.
Proof.
  split; [reflexivity |].
  apply (proj1 (proj2 (js_m3x3_str_lines
                  (Js.Engine (fun n => if PrimFloat.eqb n 1 then "1" else
                                       if PrimFloat.eqb n 2 then "2" else "3")%string
                             (fun _ => nan) (fun n => n) (fun n => n))
                  (JsText.TextEngine
                     (fun s => if String.eqb s "1" then 1 else
                               if String.eqb s "2" then 2 else 3)%float
                     (fun n => if PrimFloat.eqb n 1 then "1.00" else
                               if PrimFloat.eqb n 2 then "2.00" else "3.00")%string)))
               (fun n => match PrimFloat.eqb n 1 as b, PrimFloat.eqb n 2 as c
                               return lacks (Ascii.ascii_of_nat 10)
                                        (if b then "1.00" else
                                         if c then "2.00" else "3.00")%string = true
                         with
                         | true, _ => eq_refl
                         | false, true => eq_refl
                         | false, false => eq_refl
                         end)
               (Js.of_mat3 (m3x3 1 2 3 3 1 2 2 3 1)%float)).
Defined.
